(** * Verification model of [service.py]

    A shallow embedding of the extraction service: the per-state fetcher
    [fetch_state_data], the normalizer [process_and_clean_data], the
    delivery step [enviar_dados_para_api] and the driver [main], with the
    thread pool's [executor.map] modelled by an arbitrary completion order.

    Python values are modelled as follows.
    - A Python [str] is a list of Unicode code points ([pystr]).
    - A DataFrame cell read with [dtype=str] is [Some s] for a string and
      [None] for a missing value ([NaN]).
    - A DataFrame is a column count and its rows, each row listing the
      cells positionally (columns of a raw table are labelled 0, 1, ...).
    - Code that can raise runs in a small monad that records a trace of
      observable events (log lines, HTTP requests, file writes) and ends
      either normally or with a raised exception. *)

From Stdlib Require Import ZArith List Bool Lia String Ascii PeanoNat.
From stdpp Require Import base list.
Import ListNotations.

Open Scope Z_scope.

(* ------------------------------------------------------------------ *)
(** ** Python strings *)

Definition pystr := list N.

(** ASCII literal to a Python string. *)
Definition lit (s : string) : pystr := map N_of_ascii (list_ascii_of_string s).

Fixpoint pystr_eqb (a b : pystr) : bool :=
  match a, b with
  | [], [] => true
  | x :: a', y :: b' => N.eqb x y && pystr_eqb a' b'
  | _, _ => false
  end.

(** [s.replace("'", "''")]: every single quote (code point 39) doubled. *)
Fixpoint escape_quotes (s : pystr) : pystr :=
  match s with
  | [] => []
  | c :: t => if N.eqb c 39 then 39%N :: 39%N :: escape_quotes t
              else c :: escape_quotes t
  end.

(** [s[:2]] *)
Definition slice_to_2 (s : pystr) : pystr := firstn 2 s.

(** The characters removed by [str.strip()] (Python's [str.isspace]). *)
Definition is_py_space (c : N) : bool :=
  (9 <=? c)%N && (c <=? 13)%N || (28 <=? c)%N && (c <=? 32)%N
  || (c =? 133)%N || (c =? 160)%N || (c =? 5760)%N
  || (8192 <=? c)%N && (c <=? 8202)%N || (c =? 8232)%N || (c =? 8233)%N
  || (c =? 8239)%N || (c =? 8287)%N || (c =? 12288)%N.

(** [not s.strip()] *)
Definition strip_is_empty (s : pystr) : bool := forallb is_py_space s.

(* ------------------------------------------------------------------ *)
(** ** Constants *)

Definition DEFAULT_DATA_FIM : pystr := lit "31129999".
Definition OUTPUT_FILENAME : pystr := lit "codigos_ajustes_apuracao_final.csv".

(* ------------------------------------------------------------------ *)
(** ** DataFrames *)

Definition cell := option pystr.

Record table := mk_table { ncols : nat; rows : list (list cell) }.

(** [df.empty]: true when either axis has length 0. *)
Definition df_empty (t : table) : bool :=
  Nat.eqb (ncols t) 0 || match rows t with [] => true | _ => false end.

(** Column [i] of a row. *)
Definition col (i : nat) (r : list cell) : cell := nth i r None.

(** [pd.concat(dfs, ignore_index=True)]: the columns are the union of the
    columns 0 .. k-1 of the tables, and a row of a narrower table gets
    [NaN] in the columns it lacks; rows keep their order. *)
Definition pad_row (w : nat) (r : list cell) : list cell :=
  r ++ repeat None (w - length r).

Definition concat_dfs (dfs : list table) : table :=
  let w := fold_right (fun t m => Nat.max (ncols t) m) 0%nat dfs in
  mk_table w (flat_map (fun t => map (pad_row w) (rows t)) dfs).

(* ------------------------------------------------------------------ *)
(** ** Exceptions, responses and the trace monad *)

Record response := mk_response { status_code : Z; text : pystr }.

(** The exceptions raised by the library calls the service makes.  All of
    them are subclasses of Python's [Exception]. *)
Inductive exn :=
| HTTPError (r : response)        (* requests: raise_for_status *)
| ConnectionError                 (* requests *)
| Timeout                         (* requests *)
| RequestsJSONDecodeError         (* requests: response.json() *)
| ParserError                     (* pandas *)
| EmptyDataError                  (* pandas: no columns to parse *)
| ValueError                      (* e.g. column length mismatch *)
| KeyError
| OSError
| UnicodeError.

(** [isinstance(e, requests.exceptions.RequestException)] *)
Definition is_request_exception (e : exn) : bool :=
  match e with
  | HTTPError _ | ConnectionError | Timeout | RequestsJSONDecodeError => true
  | _ => false
  end.

(** [isinstance(e, pd.errors.ParserError)] *)
Definition is_parser_error (e : exn) : bool :=
  match e with ParserError => true | _ => false end.

(** [e.response] of a requests exception. *)
Definition exn_response (e : exn) : option response :=
  match e with HTTPError r => Some r | _ => None end.

Inductive res (A : Type) := Ok (x : A) | Raise (e : exn).
Arguments Ok {A} x.
Arguments Raise {A} e.

Inductive message :=
| MsgSkipNoTable (uf : pystr)
| MsgEmptyResponse (uf : pystr)
| MsgFetchOk (uf : pystr)
| MsgNetworkError (uf : pystr) (e : exn)
| MsgParseError (uf : pystr) (e : exn)
| MsgUnexpected (uf : pystr) (e : exn)
| MsgStart
| MsgNoData
| MsgConsolidating
| MsgCleaning
| MsgSaved
| MsgEmptyDf
| MsgPreparing (n : nat)
| MsgApiOk (body : pystr)
| MsgApiError (e : exn)
| MsgApiDetails (body : pystr)
| MsgDone.

Inductive event :=
| LogInfo (m : message)
| LogWarning (m : message)
| LogError (m : message)
| HttpGet (idTabela idPacote : Z)
| HttpPost (payload : list (list cell))
| WriteCsv (filename : pystr) (contents : table).

(** A computation that may raise, with the events it produced. *)
Definition py (A : Type) : Type := (list event * res A)%type.

Definition ret {A} (x : A) : py A := ([], Ok x).
Definition raise {A} (e : exn) : py A := ([], Raise e).
Definition emit (ev : event) : py unit := ([ev], Ok tt).

Definition bind {A B} (m : py A) (k : A -> py B) : py B :=
  match m with
  | (tr, Ok x) => let '(tr', r) := k x in (tr ++ tr', r)
  | (tr, Raise e) => (tr, Raise e)
  end.

(** [try: m except ...: handler(e)]; the handler re-raises what it does
    not catch. *)
Definition try_except {A} (m : py A) (h : exn -> py A) : py A :=
  match m with
  | (tr, Ok x) => (tr, Ok x)
  | (tr, Raise e) => let '(tr', r) := h e in (tr ++ tr', r)
  end.

Notation "'let!' x := m 'in' k" := (bind m (fun x => k))
  (at level 200, x name, m at level 100, k at level 200).
Notation "'exec!' m 'in' k" := (bind m (fun _ => k))
  (at level 200, m at level 100, k at level 200).

(* ------------------------------------------------------------------ *)
(** ** [process_and_clean_data] *)

(** [df['data_fim'].fillna(DEFAULT_DATA_FIM)
       .replace(['nan', 'NaN', ''], DEFAULT_DATA_FIM)] on one cell. *)
Definition clean_data_fim (c : cell) : cell :=
  match c with
  | None => Some DEFAULT_DATA_FIM
  | Some s =>
      if existsb (pystr_eqb s) [lit "nan"; lit "NaN"; lit ""]
      then Some DEFAULT_DATA_FIM else Some s
  end.

(** [df['descricao'].str.replace("'", "''", regex=False)]: NaN stays NaN. *)
Definition clean_descricao (c : cell) : cell := option_map escape_quotes c.

(** [df['cod_aj_apur'].str[:2]]: NaN stays NaN. *)
Definition derive_uf (c : cell) : cell := option_map slice_to_2 c.

(** One row [cod_aj_apur, descricao, data_inicio, data_fim] becomes
    [cod_aj_apur, descricao, data_inicio, data_fim, uf]. *)
Definition clean_row (r : list cell) : list cell :=
  [col 0 r; clean_descricao (col 1 r); col 2 r;
   clean_data_fim (col 3 r); derive_uf (col 0 r)].

(** The function mutates the DataFrame it is given and returns that same
    object; the result is the object's new state.  [df.columns = COLUNAS]
    raises [ValueError] (length mismatch) unless the frame has exactly the
    4 columns of [COLUNAS]; then nothing has been changed. *)
Definition process_and_clean_data (df : table) : py table :=
  exec! emit (LogInfo MsgCleaning) in
  if Nat.eqb (ncols df) 4
  then ret (mk_table 5 (map clean_row (rows df)))
  else raise ValueError.

(* ------------------------------------------------------------------ *)
(** ** The state catalogue [DADOS_ESTADUAIS] *)

(** An entry of the catalogue, a Python dict read with [estado.get(k)]
    ([None] when the key is absent or holds [None]). *)
Record estado := mk_estado {
  idPacote : option Z;
  UF : option pystr;
  idTabela : option Z }.

Definition st (p : Z) (uf : string) (t : option Z) : estado :=
  mk_estado (Some p) (Some (lit uf)) t.

Definition DADOS_ESTADUAIS : list estado := [
  st 11 "Bahia" (Some 190);
  st 21 "Paraiba" (Some 46);
  st 8 "Alagoas" (Some 33);
  st 15 "Goias" (Some 37);
  st 19 "Minas Gerais" (Some 43);
  st 22 "Pernambuco" (Some 212);
  st 29 "Rondonia" (Some 53);
  st 28 "Roraima" None;
  st 30 "Santa Catarina" (Some 54);
  st 31 "Sao Paulo" (Some 247);
  st 32 "Sergipe" (Some 56);
  st 33 "Tocantins" (Some 59);
  st 7 "Acre" (Some 727);
  st 10 "Amapa" (Some 842);
  st 9 "Amazonas" (Some 220);
  st 12 "Ceara" (Some 36);
  st 13 "Distrito Federal" (Some 838);
  st 14 "Espirito Santo" (Some 171);
  st 16 "Maranhao" (Some 122);
  st 17 "Mato Grosso" (Some 131);
  st 18 "Mato Grosso do Sul" (Some 42);
  st 20 "Para" (Some 123);
  st 23 "Parana" (Some 50);
  st 24 "Piaui" (Some 127);
  st 25 "Rio de Janeiro" (Some 52);
  st 26 "Rio Grande do Norte" (Some 126);
  st 27 "Rio Grande do Sul" (Some 173)].

(* ------------------------------------------------------------------ *)
(** ** The thread pool's [executor.map]

    [executor.map(f, xs)] submits one task per element; each future holds
    the result of its own task.  Tasks finish in an arbitrary order,
    described by a schedule of task indices.  The generator then yields
    [fs[0].result(), fs[1].result(), ...]; a future that has not finished
    yet is waited for, which yields the value its task computes. *)

Definition complete {A} (rs : list A) (slots : list (option A)) (i : nat)
  : list (option A) :=
  match rs !! i with
  | Some r => <[i := Some r]> slots
  | None => slots
  end.

Definition run_schedule {A} (rs : list A) (sched : list nat) : list (option A) :=
  fold_left (complete rs) sched (replicate (length rs) None).

Definition executor_map {X A} (f : X -> A) (xs : list X) (sched : list nat)
  : list A :=
  let rs := map f xs in
  zip_with (fun s r => match s with Some v => v | None => r end)
    (run_schedule rs sched) rs.

(* ------------------------------------------------------------------ *)
(** ** The service *)

Definition lift {A} (r : res A) : py A := ([], r).

(** [response.raise_for_status()] *)
Definition raise_for_status (r : response) : py unit :=
  if (400 <=? status_code r) && (status_code r <? 600)
  then raise (HTTPError r) else ret tt.

Section Service.

(** The external collaborators: the HTTP client, the CSV parser of pandas
    (with [sep='|', skiprows=1, header=None, dtype=str]) and the file
    system.  Each may raise. *)
Variable requests_get : Z -> Z -> res response.
Variable read_csv : pystr -> res table.
Variable write_csv : pystr -> table -> res unit.
Variable requests_post : list (list cell) -> res response.
Variable response_json : response -> res pystr.

Definition fetch_state_data (e : estado) : py (option table) :=
  let uf_nome := match UF e with Some u => u | None => lit "Desconhecido" end in
  match idTabela e with
  | None => exec! emit (LogWarning (MsgSkipNoTable uf_nome)) in ret None
  | Some id_tabela =>
      match idPacote e with
      | None => raise KeyError            (* estado["idPacote"] *)
      | Some id_pacote =>
          try_except
            (exec! emit (HttpGet id_tabela id_pacote) in
             let! response := lift (requests_get id_tabela id_pacote) in
             exec! raise_for_status response in
             if strip_is_empty (text response)
             then exec! emit (LogWarning (MsgEmptyResponse uf_nome)) in ret None
             else let! df := lift (read_csv (text response)) in
                  exec! emit (LogInfo (MsgFetchOk uf_nome)) in
                  ret (Some df))
            (fun ex =>
               if is_request_exception ex
               then exec! emit (LogError (MsgNetworkError uf_nome ex)) in ret None
               else if is_parser_error ex
               then exec! emit (LogError (MsgParseError uf_nome ex)) in ret None
               else exec! emit (LogError (MsgUnexpected uf_nome ex)) in ret None)
      end
  end.

Definition enviar_dados_para_api (df : table) : py unit :=
  if df_empty df
  then exec! emit (LogWarning MsgEmptyDf) in ret tt
  else
    exec! emit (LogInfo (MsgPreparing (length (rows df)))) in
    (* df.to_dict(orient='records') *)
    let payload := rows df in
    try_except
      (exec! emit (HttpPost payload) in
       let! response := lift (requests_post payload) in
       exec! raise_for_status response in
       let! resultado := lift (response_json response) in
       emit (LogInfo (MsgApiOk resultado)))
      (fun ex =>
         if is_request_exception ex
         then exec! emit (LogError (MsgApiError ex)) in
              match exn_response ex with
              | Some r => emit (LogError (MsgApiDetails (text r)))
              | None => ret tt
              end
         else raise ex).

(** [[df for df in results if df is not None and not df.empty]]; iterating
    the results re-raises the first exception a task raised. *)
Fixpoint collect_dfs (results : list (res (option table))) : py (list table) :=
  match results with
  | [] => ret []
  | Raise ex :: _ => raise ex
  | Ok o :: rest =>
      let! dfs := collect_dfs rest in
      match o with
      | Some df => if df_empty df then ret dfs else ret (df :: dfs)
      | None => ret dfs
      end
  end.

(** [df_final.to_csv(OUTPUT_FILENAME, index=False, encoding='utf-8-sig')] *)
Definition to_csv (df : table) : py unit :=
  exec! emit (WriteCsv OUTPUT_FILENAME df) in
  lift (write_csv OUTPUT_FILENAME df).

(** The body of [main] after the fetch phase, given the results the
    pool yields, in catalogue order. *)
Definition main_after_fetch (results : list (res (option table))) : py unit :=
  let! all_dfs := collect_dfs results in
  match all_dfs with
  | [] => exec! emit (LogWarning MsgNoData) in ret tt
  | _ :: _ =>
      exec! emit (LogInfo MsgConsolidating) in
      let! df_final := process_and_clean_data (concat_dfs all_dfs) in
      exec! to_csv df_final in
      exec! emit (LogInfo MsgSaved) in
      exec! enviar_dados_para_api df_final in
      emit (LogInfo MsgDone)
  end.

(** [main()], for a completion order [sched] of the pool's tasks.  The
    tasks' own log lines go to the worker threads and are not part of the
    main thread's trace. *)
Definition main (sched : list nat) : py unit :=
  exec! emit (LogInfo MsgStart) in
  main_after_fetch
    (executor_map (fun e => snd (fetch_state_data e)) DADOS_ESTADUAIS sched).

End Service.

(* ------------------------------------------------------------------ *)
(** ** Auxiliary definitions and concrete inputs *)

Definition ex_raw : table :=
  mk_table 4
    [[Some (lit "MG010001"); Some (lit "Credito d'ICMS"); Some (lit "01012020"); None];
     [Some (lit "B"); None; Some (lit "01012021"); Some (lit "nan")];
     [Some (lit "SP020002"); Some (lit "Ajuste"); Some (lit "01012022"); Some (lit "31122023")]].

Definition ex_clean : table :=
  mk_table 5
    [[Some (lit "MG010001"); Some (lit "Credito d''ICMS"); Some (lit "01012020");
      Some (lit "31129999"); Some (lit "MG")];
     [Some (lit "B"); None; Some (lit "01012021"); Some (lit "31129999"); Some (lit "B")];
     [Some (lit "SP020002"); Some (lit "Ajuste"); Some (lit "01012022");
      Some (lit "31122023"); Some (lit "SP")]].

(** A cell the spec calls missing, blank or a null token. *)
Definition null_or_blank (c : cell) : Prop :=
  c = None \/ c = Some [] \/ c = Some (lit "nan") \/ c = Some (lit "NaN").

Definition uf_nome_of (e : estado) : pystr :=
  match UF e with Some u => u | None => lit "Desconhecido" end.

Definition ex_get_down : Z -> Z -> res response := fun _ _ => Raise ConnectionError.
Definition ex_csv_fail : pystr -> res table := fun _ => Raise ParserError.

(** The tables the list comprehension keeps, in order. *)
Definition nonempty_successes (results : list (res (option table))) : list table :=
  flat_map (fun r => match r with
                     | Ok (Some t) => if df_empty t then [] else [t]
                     | _ => []
                     end) results.

Definition is_write (ev : event) : bool :=
  match ev with WriteCsv _ _ => true | _ => false end.

Definition is_post (ev : event) : bool :=
  match ev with HttpPost _ => true | _ => false end.

Definition pre_send (out : table) : list event :=
  [LogInfo MsgConsolidating; LogInfo MsgCleaning; WriteCsv OUTPUT_FILENAME out;
   LogInfo MsgSaved].

Definition ex_csv_one : pystr -> res table :=
  fun _ => Ok (mk_table 4 [[Some (lit "MG010001"); Some (lit "Credito");
                             Some (lit "01012020"); None]]).

Definition ex_get_ok : Z -> Z -> res response :=
  fun _ _ => Ok (mk_response 200
    (lit "Tabela|1" ++ [10%N] ++ lit "MG010001|Credito|01012020|")).

Definition ex_write_ok : pystr -> table -> res unit := fun _ _ => Ok tt.
Definition ex_write_fail : pystr -> table -> res unit := fun _ _ => Raise OSError.
Definition ex_post_ok : list (list cell) -> res response :=
  fun _ => Ok (mk_response 200 (lit "{}")).
Definition ex_post_500 : list (list cell) -> res response :=
  fun _ => Ok (mk_response 500 (lit "erro")).
Definition ex_json : response -> res pystr := fun r => Ok (text r).

Definition ex_row_clean : list cell :=
  [Some (lit "MG010001"); Some (lit "Credito"); Some (lit "01012020");
   Some (lit "31129999"); Some (lit "MG")].

(** The table [main] writes in the runs with [ex_get_ok] and [ex_csv_one]:
    one row for each of the 26 states that have an [idTabela]. *)
Definition ex_out26 : table := mk_table 5 (repeat ex_row_clean 26).

Definition is_get (ev : event) : bool :=
  match ev with HttpGet _ _ => true | _ => false end.

Definition ex_get_404 : Z -> Z -> res response :=
  fun _ _ => Ok (mk_response 404 (lit "Not Found")).

Definition ex_get_blank : Z -> Z -> res response :=
  fun _ _ => Ok (mk_response 200 [32%N; 13%N; 10%N; 9%N]).

Definition ex_get_redirect : Z -> Z -> res response :=
  fun _ _ => Ok (mk_response 302 (lit "Tabela|1")).

Definition ex_csv_banner_only : pystr -> res table := fun _ => Raise EmptyDataError.

Definition ex_post_down : list (list cell) -> res response := fun _ => Raise Timeout.

Definition ex_json_invalid : response -> res pystr := fun _ => Raise RequestsJSONDecodeError.

Definition ex_post_oserror : list (list cell) -> res response := fun _ => Raise OSError.

Definition ex_csv_wide : pystr -> res table :=
  fun _ => Ok (mk_table 5 [[Some (lit "MG010001"); Some (lit "Credito");
                             Some (lit "01012020"); None; None]]).

Example ex_raw_cleaned :
  process_and_clean_data ex_raw = ([LogInfo MsgCleaning], Ok ex_clean).
Proof. reflexivity. Qed.

Example ex_executor_order :
  executor_map (fun n : nat => (n * 10)%nat) [1; 2; 3]%nat [2; 0; 1]%nat = [10; 20; 30]%nat.
Proof. reflexivity. Qed.

(* ------------------------------------------------------------------ *)
(** ** Lemmas on strings *)

Lemma pystr_eqb_eq (a b : pystr) : pystr_eqb a b = true <-> a = b.
Proof.
  revert b; induction a as [|x a IH]; intros [|y b]; simpl;
    try (split; congruence).
  rewrite andb_true_iff, N.eqb_eq, IH. split.
  - intros [-> ->]; reflexivity.
  - intros H; injection H; auto.
Qed.

(* ------------------------------------------------------------------ *)
(** ** Lemmas on the executor *)

Section Executor.
Context {A : Type} (rs : list A).

Lemma complete_inv (slots : list (option A)) (i : nat) :
  length slots = length rs ->
  (forall j v, slots !! j = Some (Some v) -> rs !! j = Some v) ->
  length (complete rs slots i) = length rs /\
  (forall j v, complete rs slots i !! j = Some (Some v) -> rs !! j = Some v).
Proof.
  intros Hlen Hsl. unfold complete.
  destruct (rs !! i) as [r|] eqn:Hr; [|auto].
  split; [by rewrite length_insert|].
  intros j v. rewrite list_lookup_insert.
  destruct (decide _) as [[-> _]|_]; [|apply Hsl].
  intros H; injection H as ->. exact Hr.
Qed.

Lemma run_schedule_inv (sched : list nat) :
  length (run_schedule rs sched) = length rs /\
  (forall j v, run_schedule rs sched !! j = Some (Some v) -> rs !! j = Some v).
Proof.
  unfold run_schedule.
  assert (Hbase : length (replicate (length rs) (@None A)) = length rs /\
    (forall j v, replicate (length rs) (@None A) !! j = Some (Some v) ->
                 rs !! j = Some v)).
  { split; [apply length_replicate|].
    intros j v H%lookup_replicate. destruct H; discriminate. }
  revert Hbase. generalize (replicate (length rs) (@None A)).
  induction sched as [|i sched IH]; intros slots [Hl Hs]; simpl; [auto|].
  apply IH. by apply complete_inv.
Qed.

End Executor.

(** [executor.map] yields the results in the order of its input, whatever
    the order in which the tasks finish. *)
Lemma executor_map_eq {X A} (f : X -> A) (xs : list X) (sched : list nat) :
  executor_map f xs sched = map f xs.
Proof.
  unfold executor_map.
  destruct (run_schedule_inv (map f xs) sched) as [Hl Hs].
  apply list_eq. intros j. rewrite lookup_zip_with.
  destruct (run_schedule (map f xs) sched !! j) as [s|] eqn:Hj; simpl.
  - destruct (map f xs !! j) as [r|] eqn:Hr; simpl.
    + destruct s as [v|]; [|reflexivity].
      apply Hs in Hj. congruence.
    + apply lookup_lt_Some in Hj. apply lookup_ge_None in Hr. lia.
  - apply lookup_ge_None in Hj. symmetry. apply lookup_ge_None. lia.
Qed.

(* ------------------------------------------------------------------ *)
(** ** Lemmas on the normalizer *)

Lemma Forall2_map_self {X Y} (P : X -> Y -> Prop) (f : X -> Y) (l : list X) :
  (forall x, P x (f x)) -> Forall2 P l (map f l).
Proof. intros H. induction l; simpl; constructor; auto. Qed.

Lemma process_and_clean_data_ok (df out : table) tr :
  process_and_clean_data df = (tr, Ok out) ->
  ncols df = 4%nat /\ tr = [LogInfo MsgCleaning] /\
  out = mk_table 5 (map clean_row (rows df)).
Proof.
  unfold process_and_clean_data. simpl.
  destruct (Nat.eqb_spec (ncols df) 4); simpl; intros H; [|discriminate].
  injection H as <- <-. auto.
Qed.

Lemma process_and_clean_data_raise (df : table) :
  ncols df <> 4%nat ->
  process_and_clean_data df = ([LogInfo MsgCleaning], Raise ValueError).
Proof.
  intros Hn. unfold process_and_clean_data. simpl.
  destruct (Nat.eqb_spec (ncols df) 4); [contradiction|reflexivity].
Qed.

Lemma existsb_pystr_eqb (s : pystr) (l : list pystr) :
  existsb (pystr_eqb s) l = true <-> In s l.
Proof.
  rewrite existsb_exists. split.
  - intros [x [Hx Heq]]. apply pystr_eqb_eq in Heq. subst. exact Hx.
  - intros Hin. exists s. split; [exact Hin|]. by apply pystr_eqb_eq.
Qed.

Lemma clean_data_fim_spec (c : cell) :
  (null_or_blank c -> clean_data_fim c = Some DEFAULT_DATA_FIM) /\
  (~ null_or_blank c -> clean_data_fim c = c) /\
  (exists v, clean_data_fim c = Some v /\ v <> []).
Proof.
  unfold null_or_blank, clean_data_fim.
  destruct c as [s|].
  - destruct (existsb (pystr_eqb s) [lit "nan"; lit "NaN"; lit ""]) eqn:He.
    + apply existsb_pystr_eqb in He.
      split; [auto|]. split.
      * intros Hn. exfalso. apply Hn. simpl in He.
        destruct He as [<-|[<-|[<-|[]]]]; auto.
      * exists DEFAULT_DATA_FIM. split; [reflexivity|discriminate].
    + assert (Hn : ~ In s [lit "nan"; lit "NaN"; lit ""])
        by (rewrite <- existsb_pystr_eqb; congruence).
      split; [|split; [reflexivity|]].
      * intros [H|[H|[H|H]]]; inversion H; subst; exfalso; apply Hn;
          simpl; auto.
      * exists s. split; [reflexivity|]. intros ->. apply Hn. simpl; auto.
  - split; [auto|]. split.
    + intros Hn. exfalso. apply Hn. auto.
    + exists DEFAULT_DATA_FIM. split; [reflexivity|discriminate].
Qed.

Lemma clean_data_fim_idem (c : cell) :
  clean_data_fim (clean_data_fim c) = clean_data_fim c.
Proof.
  assert (Hd : clean_data_fim (Some DEFAULT_DATA_FIM) = Some DEFAULT_DATA_FIM)
    by reflexivity.
  destruct c as [s|]; [|exact Hd].
  remember (clean_data_fim (Some s)) as c' eqn:Hc.
  unfold clean_data_fim in Hc.
  destruct (existsb (pystr_eqb s) [lit "nan"; lit "NaN"; lit ""]) eqn:He;
    subst c'; [exact Hd|].
  unfold clean_data_fim. rewrite He. reflexivity.
Qed.

Lemma escape_quotes_length_ge (s : pystr) :
  (length s <= length (escape_quotes s))%nat.
Proof.
  induction s as [|c t IH]; simpl; [lia|].
  destruct (N.eqb c 39); simpl; lia.
Qed.

Lemma escape_quotes_quote (s : pystr) :
  In 39%N s ->
  In 39%N (escape_quotes s) /\ (length s < length (escape_quotes s))%nat.
Proof.
  induction s as [|c t IH]; simpl; [tauto|].
  intros Hin. destruct (N.eqb_spec c 39) as [->|Hc]; simpl.
  - split; [auto|]. pose proof (escape_quotes_length_ge t). lia.
  - destruct Hin as [->|Hin]; [contradiction|].
    destruct (IH Hin) as [H1 H2]. split; [auto|lia].
Qed.

Lemma escape_quotes_twice (s : pystr) :
  In 39%N s -> escape_quotes (escape_quotes s) <> escape_quotes s.
Proof.
  intros Hin Heq.
  destruct (escape_quotes_quote s Hin) as [Hin' _].
  destruct (escape_quotes_quote _ Hin') as [_ Hlt].
  rewrite Heq in Hlt. lia.
Qed.

Lemma derive_uf_idem (c : cell) : derive_uf (derive_uf c) = derive_uf c.
Proof.
  destruct c as [a|]; [|reflexivity]. simpl. unfold slice_to_2.
  rewrite firstn_firstn. reflexivity.
Qed.

(* ------------------------------------------------------------------ *)
(** ** Claims on the normalizer *)

(** C1: in every row of the normalized table the [data_fim] (endDate)
    cell is a non-empty string; a missing cell, an empty string or the
    texts ["nan"]/["NaN"] in the input become ["31129999"], and every other
    input value is kept unchanged. *)
Theorem process_and_clean_data_data_fim (df out : table) (tr : list event) :
  process_and_clean_data df = (tr, Ok out) ->
  Forall2 (fun r o =>
    (exists v, col 3 o = Some v /\ v <> []) /\
    (null_or_blank (col 3 r) -> col 3 o = Some DEFAULT_DATA_FIM) /\
    (~ null_or_blank (col 3 r) -> col 3 o = col 3 r))
    (rows df) (rows out).
Proof.
  intros H. apply process_and_clean_data_ok in H as (_ & _ & ->). simpl.
  apply Forall2_map_self. intros r. unfold clean_row. simpl.
  destruct (clean_data_fim_spec (col 3 r)) as (H1 & H2 & H3). auto.
Qed.

Lemma process_and_clean_data_data_fim_witness :
  process_and_clean_data ex_raw = ([LogInfo MsgCleaning], Ok ex_clean) /\
  Forall2 (fun r o =>
    (exists v, col 3 o = Some v /\ v <> []) /\
    (null_or_blank (col 3 r) -> col 3 o = Some DEFAULT_DATA_FIM) /\
    (~ null_or_blank (col 3 r) -> col 3 o = col 3 r))
    (rows ex_raw) (rows ex_clean).
Proof.
  split; [reflexivity|].
  apply (process_and_clean_data_data_fim ex_raw ex_clean [LogInfo MsgCleaning]).
  reflexivity.
Defined.

(** C9: in every row of the normalized table the [uf] (regionCode) cell
    is the first 2 characters of the [cod_aj_apur] (adjustmentCode) cell,
    which is kept as it was; a code shorter than 2 characters is its own
    [uf]; a missing code gives a missing [uf]. *)
Theorem process_and_clean_data_uf (df out : table) (tr : list event) :
  process_and_clean_data df = (tr, Ok out) ->
  Forall2 (fun r o =>
    col 0 o = col 0 r /\
    match col 0 r with
    | Some a => col 4 o = Some (firstn 2 a) /\
                ((length a < 2)%nat -> col 4 o = Some a)
    | None => col 4 o = None
    end)
    (rows df) (rows out).
Proof.
  intros H. apply process_and_clean_data_ok in H as (_ & _ & ->). simpl.
  apply Forall2_map_self. intros r. unfold clean_row. simpl.
  split; [reflexivity|].
  destruct (col 0 r) as [a|]; simpl; [|reflexivity].
  split; [reflexivity|]. intros Hlt. unfold slice_to_2.
  rewrite firstn_all2 by lia. reflexivity.
Qed.

Lemma process_and_clean_data_uf_witness :
  process_and_clean_data ex_raw = ([LogInfo MsgCleaning], Ok ex_clean) /\
  Forall2 (fun r o =>
    col 0 o = col 0 r /\
    match col 0 r with
    | Some a => col 4 o = Some (firstn 2 a) /\
                ((length a < 2)%nat -> col 4 o = Some a)
    | None => col 4 o = None
    end)
    (rows ex_raw) (rows ex_clean).
Proof.
  split; [reflexivity|].
  apply (process_and_clean_data_uf ex_raw ex_clean [LogInfo MsgCleaning]).
  reflexivity.
Defined.

(** C4 (counterexample): applying the normalizer a second time to its
    result (which is also what a second call on the same, mutated,
    DataFrame does) does not give the result of one application: it
    raises, and the quote escaping is not idempotent. *)
Lemma process_and_clean_data_twice_counterexample :
  process_and_clean_data ex_raw = ([LogInfo MsgCleaning], Ok ex_clean) /\
  bind (process_and_clean_data ex_raw) process_and_clean_data =
    ([LogInfo MsgCleaning; LogInfo MsgCleaning], Raise ValueError) /\
  escape_quotes (escape_quotes (lit "d'ICMS")) <> escape_quotes (lit "d'ICMS").
Proof.
  split; [reflexivity|]. split; [reflexivity|].
  vm_compute. intros H. discriminate H.
Qed.

(** C4 (amended): the normalizer is not idempotent.  Applied to its own
    5-column output it raises [ValueError] (the column count no longer
    matches [COLUNAS]); of the cell rules, the [data_fim] cleaning and the
    [uf] derivation are idempotent, while the quote escaping doubles the
    quotes again. *)
Theorem process_and_clean_data_not_idempotent (df out : table) (tr : list event) :
  process_and_clean_data df = (tr, Ok out) ->
  process_and_clean_data out = ([LogInfo MsgCleaning], Raise ValueError) /\
  (forall c, clean_data_fim (clean_data_fim c) = clean_data_fim c) /\
  (forall c, derive_uf (derive_uf c) = derive_uf c) /\
  (forall s, In 39%N s -> escape_quotes (escape_quotes s) <> escape_quotes s).
Proof.
  intros H. apply process_and_clean_data_ok in H as (_ & _ & ->).
  split; [by apply process_and_clean_data_raise|].
  split; [exact clean_data_fim_idem|].
  split; [exact derive_uf_idem|].
  exact escape_quotes_twice.
Qed.

Lemma process_and_clean_data_not_idempotent_witness :
  process_and_clean_data ex_raw = ([LogInfo MsgCleaning], Ok ex_clean) /\
  process_and_clean_data ex_clean = ([LogInfo MsgCleaning], Raise ValueError).
Proof.
  split; [reflexivity|].
  apply (process_and_clean_data_not_idempotent ex_raw ex_clean
           [LogInfo MsgCleaning]).
  reflexivity.
Defined.

(* ------------------------------------------------------------------ *)
(** ** Claims on the fetcher *)

Lemma bind_ret_r {A} (m : py A) : bind m ret = m.
Proof. destruct m as [tr [x|ex]]; simpl; [by rewrite app_nil_r|reflexivity]. Qed.

(** Every exception raised inside the [try] block is handled: each handler
    logs an error and the function returns [None]. *)
Lemma fetch_handler_total (uf : pystr) (ex : exn) :
  exists m,
    (if is_request_exception ex
     then exec! emit (LogError (MsgNetworkError uf ex)) in ret None
     else if is_parser_error ex
     then exec! emit (LogError (MsgParseError uf ex)) in ret None
     else exec! emit (LogError (MsgUnexpected uf ex)) in ret None)
    = ([LogError m], @Ok (option table) None).
Proof.
  destruct (is_request_exception ex); [eexists; reflexivity|].
  destruct (is_parser_error ex); eexists; reflexivity.
Qed.

(** C5: for a catalogue entry that has its [idPacote] (as every
    RegionDescriptor does), [fetch_state_data] never raises: it returns a
    parsed table, or [None] after logging a warning or an error that names
    the cause. *)
Theorem fetch_state_data_no_raise (requests_get : Z -> Z -> res response)
    (read_csv : pystr -> res table) (e : estado) :
  idPacote e <> None ->
  match fetch_state_data requests_get read_csv e with
  | (_, Ok (Some _)) => True
  | (tr, Ok None) => exists m, In (LogWarning m) tr \/ In (LogError m) tr
  | (_, Raise _) => False
  end.
Proof.
  intros Hp. unfold fetch_state_data.
  destruct (idTabela e) as [t|]; [|simpl; eauto].
  destruct (idPacote e) as [p|]; [|contradiction].
  set (h := fun ex : exn => _ : py (option table)).
  assert (Hh : forall ex, exists m, h ex = ([LogError m], Ok None)).
  { intros ex. subst h. cbv beta. apply fetch_handler_total. }
  unfold try_except, bind at 1. simpl.
  destruct (requests_get t p) as [resp|ex]; simpl.
  2:{ destruct (Hh ex) as [m ->]. simpl. exists m. right. simpl. auto. }
  unfold raise_for_status.
  destruct ((400 <=? status_code resp) && (status_code resp <? 600)); simpl.
  { eexists. right. simpl. auto. }
  destruct (strip_is_empty (text resp)); simpl.
  { eexists. left. simpl. auto. }
  destruct (read_csv (text resp)) as [df|ex]; simpl; [exact I|].
  destruct (Hh ex) as [m ->]. simpl. exists m. right. simpl. auto.
Qed.

Lemma fetch_state_data_no_raise_witness :
  idPacote (st 11 "Bahia" (Some 190)) <> None /\
  fetch_state_data ex_get_down ex_csv_fail (st 11 "Bahia" (Some 190)) =
    ([HttpGet 190 11; LogError (MsgNetworkError (lit "Bahia") ConnectionError)],
     Ok None) /\
  exists m,
    In (LogWarning m) [HttpGet 190 11; LogError (MsgNetworkError (lit "Bahia") ConnectionError)] \/
    In (LogError m) [HttpGet 190 11; LogError (MsgNetworkError (lit "Bahia") ConnectionError)].
Proof.
  split; [discriminate|]. split; [reflexivity|].
  pose proof (fetch_state_data_no_raise ex_get_down ex_csv_fail
                (st 11 "Bahia" (Some 190)) ltac:(discriminate)) as H.
  exact H.
Defined.

Lemma fetch_state_data_no_table (requests_get : Z -> Z -> res response)
    (read_csv : pystr -> res table) (e : estado) :
  idTabela e = None ->
  fetch_state_data requests_get read_csv e =
    ([LogWarning (MsgSkipNoTable (uf_nome_of e))], Ok None).
Proof. intros Ht. unfold fetch_state_data. rewrite Ht. reflexivity. Qed.

(** C8: an entry without [idTabela] is skipped at once: the only event is
    the warning "sem idTabela", no HTTP request is made, no network error
    is logged, and the [None] it returns adds no table to [all_dfs]. *)
Theorem fetch_state_data_skip (requests_get : Z -> Z -> res response)
    (read_csv : pystr -> res table) (e : estado) :
  idTabela e = None ->
  fetch_state_data requests_get read_csv e =
    ([LogWarning (MsgSkipNoTable (uf_nome_of e))], Ok None) /\
  (forall t p, ~ In (HttpGet t p) (fst (fetch_state_data requests_get read_csv e))) /\
  (forall u ex, ~ In (LogError (MsgNetworkError u ex))
                    (fst (fetch_state_data requests_get read_csv e))) /\
  (forall rest, collect_dfs (snd (fetch_state_data requests_get read_csv e) :: rest)
                = collect_dfs rest).
Proof.
  intros Ht. rewrite (fetch_state_data_no_table requests_get read_csv e Ht). simpl. split; [reflexivity|].
  split; [intros t p [H|[]]; discriminate|].
  split; [intros u ex [H|[]]; discriminate|].
  intros rest. apply bind_ret_r.
Qed.

Lemma fetch_state_data_skip_witness :
  idTabela (st 28 "Roraima" None) = None /\
  fetch_state_data ex_get_down ex_csv_fail (st 28 "Roraima" None) =
    ([LogWarning (MsgSkipNoTable (lit "Roraima"))], Ok None).
Proof.
  split; [reflexivity|].
  apply (fetch_state_data_skip ex_get_down ex_csv_fail (st 28 "Roraima" None)).
  reflexivity.
Defined.

(* ------------------------------------------------------------------ *)
(** ** Lemmas on [main] *)

Lemma collect_dfs_spec (results : list (res (option table))) :
  (exists ex, collect_dfs results = ([], Raise ex) /\ In (Raise ex) results) \/
  collect_dfs results = ([], Ok (nonempty_successes results)).
Proof.
  induction results as [|r rest IH]; simpl; [right; reflexivity|].
  destruct r as [o|ex]; [|left; exists ex; auto].
  destruct IH as [[ex [He Hin]]|He]; rewrite He; simpl.
  - left. exists ex. auto.
  - right. destruct o as [t|]; simpl; [|reflexivity].
    destruct (df_empty t); reflexivity.
Qed.

Lemma collect_dfs_all_ok (results : list (res (option table))) :
  (forall ex, ~ In (Raise ex) results) ->
  collect_dfs results = ([], Ok (nonempty_successes results)).
Proof.
  intros H. destruct (collect_dfs_spec results) as [[ex [_ Hin]]|He];
    [exfalso; exact (H ex Hin)|exact He].
Qed.

Lemma length_rows_concat_dfs (dfs : list table) :
  length (rows (concat_dfs dfs)) = list_sum (map (fun t => length (rows t)) dfs).
Proof.
  unfold concat_dfs. simpl.
  generalize (fold_right (fun t m => Nat.max (ncols t) m) 0%nat dfs) as w.
  intros w. induction dfs as [|t dfs IH]; simpl; [reflexivity|].
  rewrite length_app, length_map, IH. reflexivity.
Qed.

Lemma enviar_dados_para_api_no_write
    (requests_post : list (list cell) -> res response)
    (response_json : response -> res pystr) (df : table) :
  forallb (fun ev => negb (is_write ev))
    (fst (enviar_dados_para_api requests_post response_json df)) = true.
Proof.
  unfold enviar_dados_para_api.
  destruct (df_empty df); [reflexivity|]. simpl.
  destruct (requests_post (rows df)) as [resp|ex]; simpl.
  - unfold raise_for_status.
    destruct ((400 <=? status_code resp) && (status_code resp <? 600)); simpl;
      [reflexivity|].
    destruct (response_json resp) as [j|ex]; simpl; [reflexivity|].
    destruct (is_request_exception ex); simpl; [|reflexivity].
    destruct (exn_response ex); reflexivity.
  - destruct (is_request_exception ex); simpl; [|reflexivity].
    destruct (exn_response ex); reflexivity.
Qed.

(** A POST answered with 4xx/5xx is caught and logged by the send step. *)
Lemma enviar_dados_para_api_http_error
    (requests_post : list (list cell) -> res response)
    (response_json : response -> res pystr) (df : table) tr' r' p resp :
  enviar_dados_para_api requests_post response_json df = (tr', r') ->
  In (HttpPost p) tr' -> requests_post p = Ok resp ->
  400 <= status_code resp < 600 ->
  r' = Ok tt /\ In (LogError (MsgApiError (HTTPError resp))) tr'.
Proof.
  intros He Hin Hp Hs. unfold enviar_dados_para_api in He.
  destruct (df_empty df).
  - injection He as <- <-. simpl in Hin. destruct Hin as [H|[]]; discriminate.
  - simpl in He.
    assert (Hpe : p = rows df).
    { destruct (requests_post (rows df)) as [resp0|ex]; simpl in He;
        [unfold raise_for_status in He;
         destruct ((400 <=? status_code resp0) && (status_code resp0 <? 600));
         simpl in He;
         [|destruct (response_json resp0) as [j|ex]; simpl in He;
           [|destruct (is_request_exception ex); simpl in He;
             [destruct (exn_response ex); simpl in He|]]]
        |destruct (is_request_exception ex); simpl in He;
         [destruct (exn_response ex); simpl in He|]];
      injection He as <- _; simpl in Hin;
      repeat (destruct Hin as [Hin|Hin]; [try discriminate Hin; congruence|]);
      contradiction. }
    subst p. rewrite Hp in He. simpl in He. unfold raise_for_status in He.
    replace ((400 <=? status_code resp) && (status_code resp <? 600)) with true
      in He by (symmetry; apply andb_true_iff; split; [apply Z.leb_le|apply Z.ltb_lt]; lia).
    simpl in He. injection He as <- <-. split; [reflexivity|].
    simpl. auto 6.
Qed.

Section MainCases.
Variable write_csv : pystr -> table -> res unit.
Variable requests_post : list (list cell) -> res response.
Variable response_json : response -> res pystr.

(** The runs of the body of [main] after the fetch phase. *)
Lemma main_after_fetch_cases (results : list (res (option table))) tr r :
  main_after_fetch write_csv requests_post response_json results = (tr, r) ->
  (exists ex, collect_dfs results = ([], Raise ex) /\ tr = [] /\ r = Raise ex) \/
  (collect_dfs results = ([], Ok []) /\ tr = [LogWarning MsgNoData] /\ r = Ok tt) \/
  (exists dfs, collect_dfs results = ([], Ok dfs) /\ dfs <> [] /\
     ncols (concat_dfs dfs) <> 4%nat /\
     tr = [LogInfo MsgConsolidating; LogInfo MsgCleaning] /\ r = Raise ValueError) \/
  (exists dfs out, collect_dfs results = ([], Ok dfs) /\ dfs <> [] /\
     process_and_clean_data (concat_dfs dfs) = ([LogInfo MsgCleaning], Ok out) /\
     ((exists ex, write_csv OUTPUT_FILENAME out = Raise ex /\
        tr = [LogInfo MsgConsolidating; LogInfo MsgCleaning;
              WriteCsv OUTPUT_FILENAME out] /\ r = Raise ex) \/
      (write_csv OUTPUT_FILENAME out = Ok tt /\
       exists tr' r',
         enviar_dados_para_api requests_post response_json out = (tr', r') /\
         ((r' = Ok tt /\ tr = pre_send out ++ tr' ++ [LogInfo MsgDone] /\ r = Ok tt) \/
          (exists ex, r' = Raise ex /\ tr = pre_send out ++ tr' /\ r = Raise ex))))).
Proof.
  intros H. unfold main_after_fetch in H.
  destruct (collect_dfs_spec results) as [[ex [He _]]|He]; rewrite He in H.
  { left. exists ex. simpl in H. injection H as <- <-. auto. }
  right. remember (nonempty_successes results) as dfs eqn:Hdfs.
  destruct dfs as [|d ds].
  { left. simpl in H. injection H as <- <-. auto. }
  right. remember (concat_dfs (d :: ds)) as cd eqn:Hcd.
  cbn [bind emit ret] in H. rewrite <- Hcd in H. cbn [app] in H.
  destruct (Nat.eqb_spec (ncols cd) 4) as [Hn|Hn].
  2:{ left. exists (d :: ds). rewrite (process_and_clean_data_raise cd Hn) in H.
      simpl in H. injection H as <- <-. subst cd. repeat split; auto; discriminate. }
  right.
  destruct (process_and_clean_data cd) as [trp [out|ex]] eqn:Hp.
  2:{ exfalso. unfold process_and_clean_data in Hp. simpl in Hp.
      rewrite Hn in Hp. simpl in Hp. discriminate. }
  pose proof (process_and_clean_data_ok _ _ _ Hp) as (_ & -> & _).
  exists (d :: ds), out. split; [exact He|]. split; [discriminate|].
  split; [subst cd; exact Hp|].
  cbn [bind emit lift app to_csv] in H.
  destruct (write_csv OUTPUT_FILENAME out) as [[]|ex] eqn:Hw.
  2:{ left. exists ex. simpl in H. injection H as <- <-. auto. }
  right. split; [reflexivity|].
  cbn [bind emit app] in H.
  destruct (enviar_dados_para_api requests_post response_json out) as [tr' [[]|ex]] eqn:Hs.
  - exists tr', (Ok tt). split; [reflexivity|]. left.
    simpl in H. injection H as <- <-. unfold pre_send. simpl.
    split; [reflexivity|]. split; reflexivity.
  - exists tr', (Raise ex). split; [reflexivity|]. right. exists ex.
    simpl in H. injection H as <- <-. unfold pre_send. simpl.
    split; [reflexivity|]. split; [|reflexivity].
    try rewrite app_nil_r. reflexivity.
Qed.

End MainCases.

Lemma in_pre_send_write (out o : table) f :
  In (WriteCsv f o) (pre_send out) -> f = OUTPUT_FILENAME /\ o = out.
Proof.
  unfold pre_send. simpl. intros [H|[H|[H|[H|[]]]]]; try discriminate.
  injection H as <- <-. auto.
Qed.

Lemma enviar_not_in_write requests_post response_json (df : table) tr' r' f o :
  enviar_dados_para_api requests_post response_json df = (tr', r') ->
  ~ In (WriteCsv f o) tr'.
Proof.
  intros He Hin.
  pose proof (enviar_dados_para_api_no_write requests_post response_json df) as H.
  rewrite He in H. simpl in H. rewrite forallb_forall in H.
  apply H in Hin. discriminate.
Qed.

(** The table written by [to_csv] is the normalized concatenation of the
    non-empty parsed tables, in the order of the results. *)
Lemma main_after_fetch_written write_csv requests_post response_json
    (results : list (res (option table))) tr r f out :
  main_after_fetch write_csv requests_post response_json results = (tr, r) ->
  In (WriteCsv f out) tr ->
  f = OUTPUT_FILENAME /\
  collect_dfs results = ([], Ok (nonempty_successes results)) /\
  process_and_clean_data (concat_dfs (nonempty_successes results)) =
    ([LogInfo MsgCleaning], Ok out) /\
  (forall ex, write_csv OUTPUT_FILENAME out = Raise ex ->
     r = Raise ex /\ tr = [LogInfo MsgConsolidating; LogInfo MsgCleaning;
                           WriteCsv OUTPUT_FILENAME out]).
Proof.
  intros H Hin.
  destruct (main_after_fetch_cases _ _ _ _ _ _ H) as
    [[ex [_ [-> _]]]|[[_ [-> _]]|[[dfs [_ [_ [_ [-> _]]]]]|
      [dfs [out' [Hc [_ [Hp Hw]]]]]]]];
    try solve [simpl in Hin; decompose [or False] Hin; discriminate].
  assert (Hdfs : dfs = nonempty_successes results).
  { destruct (collect_dfs_spec results) as [[ex [He _]]|He]; congruence. }
  subst dfs.
  destruct Hw as [[ex [Hw [-> ->]]]|[Hw [tr' [r' [Hs Hcase]]]]].
  - simpl in Hin. destruct Hin as [H1|[H1|[H1|[]]]]; try discriminate H1.
    injection H1 as <- <-. split; [reflexivity|]. split; [exact Hc|].
    split; [exact Hp|]. intros ex0 Hex. rewrite Hw in Hex.
    injection Hex as <-. auto.
  - assert (Hw' : f = OUTPUT_FILENAME /\ out = out').
    { destruct Hcase as [[_ [-> _]]|[ex1 [_ [-> _]]]];
        repeat rewrite in_app_iff in Hin;
        [destruct Hin as [Hin|[Hin|Hin]]|destruct Hin as [Hin|Hin]];
        try (apply in_pre_send_write in Hin; tauto);
        try (exfalso; exact (enviar_not_in_write _ _ _ _ _ _ _ Hs Hin));
        simpl in Hin; destruct Hin as [Hin|[]]; discriminate. }
    destruct Hw' as [-> ->]. repeat split; auto.
    all: congruence.
Qed.

(** Results of regions that returned [None] do not change the run. *)
Lemma collect_dfs_drop_none (r1 r2 : list (res (option table))) :
  collect_dfs (r1 ++ Ok None :: r2) = collect_dfs (r1 ++ r2).
Proof.
  induction r1 as [|r r1 IH]; simpl; [apply bind_ret_r|].
  destruct r as [o|ex]; [|reflexivity]. rewrite IH. reflexivity.
Qed.

Lemma main_unfold get csv write post json (sched : list nat) :
  main get csv write post json sched =
  let '(tr, r) := main_after_fetch write post json
                    (map (fun e => snd (fetch_state_data get csv e)) DADOS_ESTADUAIS)
  in (LogInfo MsgStart :: tr, r).
Proof. unfold main. rewrite executor_map_eq. reflexivity. Qed.

(* ------------------------------------------------------------------ *)
(** ** A concrete run of [main] *)

Example ex_main_run_rows :
  match main ex_get_ok ex_csv_one ex_write_ok ex_post_ok ex_json [] with
  | (tr, Ok tt) => In (LogInfo (MsgPreparing 26)) tr
  | _ => False
  end.
Proof. vm_compute. tauto. Qed.

Lemma collect_dfs_nothing (F : estado -> res (option table)) (es : list estado) :
  Forall (fun e => F e = Ok None \/
                   exists t, F e = Ok (Some t) /\ df_empty t = true) es ->
  collect_dfs (map F es) = ([], Ok []).
Proof.
  induction 1 as [|e es He _ IH]; [reflexivity|]. simpl. rewrite IH.
  destruct He as [-> | [t [-> Ht]]]; simpl; [reflexivity|]. rewrite Ht. reflexivity.
Qed.

Lemma sum_nonempty_successes (F : estado -> res (option table))
    (es : list estado) :
  (forall e t, In e es -> F e = Ok (Some t) -> (0 < ncols t)%nat) ->
  (forall e, idTabela e = None -> F e = Ok None) ->
  list_sum (map (fun t => length (rows t)) (nonempty_successes (map F es))) =
  list_sum (map (fun e => match idTabela e with
                          | None => 0%nat
                          | Some _ => match F e with
                                      | Ok (Some t) => length (rows t)
                                      | _ => 0%nat
                                      end
                          end) es).
Proof.
  intros Hcols Hnone. induction es as [|e es IH]; [reflexivity|].
  cbn [map nonempty_successes flat_map list_sum].
  fold (nonempty_successes (map F es)).
  rewrite map_app, list_sum_app.
  rewrite IH by (intros e' t He'; apply Hcols; right; exact He').
  f_equal.
  destruct (idTabela e) as [tid|] eqn:Ht.
  - destruct (F e) as [[t|]|ex] eqn:Hf; simpl; try reflexivity.
    destruct (df_empty t) eqn:He; simpl; [|lia].
    unfold df_empty in He.
    assert (Hc : (0 < ncols t)%nat) by (apply (Hcols e t); [left|]; auto).
    destruct (Nat.eqb_spec (ncols t) 0); [lia|].
    destruct (rows t); [reflexivity|discriminate].
  - rewrite (Hnone e Ht). reflexivity.
Qed.

(* ------------------------------------------------------------------ *)
(** ** Claims on [main] *)

(** C2: when no state yields a non-empty table, [main] stops after the
    warning "Nenhum dado foi baixado": nothing is written and nothing is
    posted. *)
Theorem main_no_data (requests_get : Z -> Z -> res response)
    (read_csv : pystr -> res table) (write_csv : pystr -> table -> res unit)
    (requests_post : list (list cell) -> res response)
    (response_json : response -> res pystr) (sched : list nat) :
  Forall (fun e => snd (fetch_state_data requests_get read_csv e) = Ok None \/
                   exists t, snd (fetch_state_data requests_get read_csv e) = Ok (Some t)
                             /\ df_empty t = true) DADOS_ESTADUAIS ->
  main requests_get read_csv write_csv requests_post response_json sched =
    ([LogInfo MsgStart; LogWarning MsgNoData], Ok tt).
Proof.
  intros H. rewrite main_unfold. unfold main_after_fetch.
  rewrite (collect_dfs_nothing _ _ H). reflexivity.
Qed.

Lemma main_no_data_witness :
  Forall (fun e => snd (fetch_state_data ex_get_down ex_csv_fail e) = Ok None \/
                   exists t, snd (fetch_state_data ex_get_down ex_csv_fail e) = Ok (Some t)
                             /\ df_empty t = true) DADOS_ESTADUAIS /\
  main ex_get_down ex_csv_fail ex_write_ok ex_post_ok ex_json [3; 1; 2]%nat =
    ([LogInfo MsgStart; LogWarning MsgNoData], Ok tt).
Proof.
  assert (H : Forall (fun e => snd (fetch_state_data ex_get_down ex_csv_fail e) = Ok None \/
                   exists t, snd (fetch_state_data ex_get_down ex_csv_fail e) = Ok (Some t)
                             /\ df_empty t = true) DADOS_ESTADUAIS).
  { unfold DADOS_ESTADUAIS.
    repeat (apply List.Forall_cons; [left; reflexivity|]). apply List.Forall_nil. }
  split; [exact H|].
  apply (main_no_data ex_get_down ex_csv_fail ex_write_ok ex_post_ok ex_json
           [3; 1; 2]%nat H).
Defined.

(** C3 (counterexample): every state answers, the write of the snapshot
    raises [OSError]: [main] ends with that exception and never posts. *)
Lemma main_write_failure_counterexample :
  snd (main ex_get_ok ex_csv_one ex_write_fail ex_post_ok ex_json []) = Raise OSError /\
  forallb (fun ev => negb (is_post ev))
    (fst (main ex_get_ok ex_csv_one ex_write_fail ex_post_ok ex_json [])) = true.
Proof. split; vm_compute; reflexivity. Qed.

(** C3 (amended): the snapshot write is not guarded.  When writing the
    normalized table raises, the exception leaves [main]: the run ends with
    it and no POST is made. *)
Theorem main_write_failure_propagates (requests_get : Z -> Z -> res response)
    (read_csv : pystr -> res table) (write_csv : pystr -> table -> res unit)
    (requests_post : list (list cell) -> res response)
    (response_json : response -> res pystr) (sched : list nat)
    tr r (out : table) (ex : exn) :
  main requests_get read_csv write_csv requests_post response_json sched = (tr, r) ->
  In (WriteCsv OUTPUT_FILENAME out) tr ->
  write_csv OUTPUT_FILENAME out = Raise ex ->
  r = Raise ex /\ forallb (fun ev => negb (is_post ev)) tr = true.
Proof.
  rewrite main_unfold.
  destruct (main_after_fetch write_csv requests_post response_json _) as [tr0 r0] eqn:Hm.
  intros H. injection H as <- <-. intros Hin Hw.
  destruct Hin as [Hin|Hin]; [discriminate|].
  destruct (main_after_fetch_written _ _ _ _ _ _ _ _ Hm Hin) as (_ & _ & _ & Hx).
  destruct (Hx ex Hw) as [-> ->]. split; reflexivity.
Qed.

Lemma main_write_failure_propagates_witness :
  In (WriteCsv OUTPUT_FILENAME ex_out26)
     (fst (main ex_get_ok ex_csv_one ex_write_fail ex_post_ok ex_json [])) /\
  snd (main ex_get_ok ex_csv_one ex_write_fail ex_post_ok ex_json []) = Raise OSError /\
  forallb (fun ev => negb (is_post ev))
    (fst (main ex_get_ok ex_csv_one ex_write_fail ex_post_ok ex_json [])) = true.
Proof.
  split; [vm_compute; tauto|].
  apply (main_write_failure_propagates ex_get_ok ex_csv_one ex_write_fail
           ex_post_ok ex_json [] _ _ ex_out26 OSError).
  - vm_compute. reflexivity.
  - vm_compute. tauto.
  - reflexivity.
Defined.

(** Row count of the written table, for any catalogue. *)
Lemma main_after_fetch_rows (requests_get : Z -> Z -> res response)
    (read_csv : pystr -> res table) (write_csv : pystr -> table -> res unit)
    (requests_post : list (list cell) -> res response)
    (response_json : response -> res pystr) (es : list estado) tr r out :
  (forall e t, In e es ->
     snd (fetch_state_data requests_get read_csv e) = Ok (Some t) -> (0 < ncols t)%nat) ->
  main_after_fetch write_csv requests_post response_json
    (map (fun e => snd (fetch_state_data requests_get read_csv e)) es) = (tr, r) ->
  In (WriteCsv OUTPUT_FILENAME out) tr ->
  length (rows out) =
  list_sum (map (fun e => match idTabela e with
                          | None => 0%nat
                          | Some _ =>
                              match snd (fetch_state_data requests_get read_csv e) with
                              | Ok (Some t) => length (rows t)
                              | _ => 0%nat
                              end
                          end) es).
Proof.
  intros Hcols Hm Hin.
  destruct (main_after_fetch_written _ _ _ _ _ _ _ _ Hm Hin) as (_ & _ & Hp & _).
  apply process_and_clean_data_ok in Hp as (_ & _ & ->). cbn [rows].
  rewrite length_map, length_rows_concat_dfs.
  apply sum_nonempty_successes; [exact Hcols|].
  intros e Ht. rewrite (fetch_state_data_no_table _ _ e Ht). reflexivity.
Qed.

(** C6: the table [main] writes (and then posts) has as many rows as the
    tables parsed for the states that have an [idTabela], together; a state
    whose fetch returned [None] changes nothing in the run. *)
Theorem main_row_count (requests_get : Z -> Z -> res response)
    (read_csv : pystr -> res table) (write_csv : pystr -> table -> res unit)
    (requests_post : list (list cell) -> res response)
    (response_json : response -> res pystr) (sched : list nat) tr r out :
  (forall e t, In e DADOS_ESTADUAIS ->
     snd (fetch_state_data requests_get read_csv e) = Ok (Some t) -> (0 < ncols t)%nat) ->
  main requests_get read_csv write_csv requests_post response_json sched = (tr, r) ->
  In (WriteCsv OUTPUT_FILENAME out) tr ->
  length (rows out) =
  list_sum (map (fun e => match idTabela e with
                          | None => 0%nat
                          | Some _ =>
                              match snd (fetch_state_data requests_get read_csv e) with
                              | Ok (Some t) => length (rows t)
                              | _ => 0%nat
                              end
                          end) DADOS_ESTADUAIS) /\
  (forall r1 r2, main_after_fetch write_csv requests_post response_json (r1 ++ Ok None :: r2)
                 = main_after_fetch write_csv requests_post response_json (r1 ++ r2)).
Proof.
  intros Hcols. rewrite main_unfold.
  destruct (main_after_fetch write_csv requests_post response_json _) as [tr0 r0] eqn:Hm.
  intros H. injection H as <- <-. intros Hin.
  destruct Hin as [Hin|Hin]; [discriminate|].
  split; [exact (main_after_fetch_rows _ _ _ _ _ _ _ _ _ Hcols Hm Hin)|].
  intros r1 r2. unfold main_after_fetch. rewrite collect_dfs_drop_none. reflexivity.
Qed.

Lemma main_row_count_witness :
  length (rows ex_out26) = 26%nat /\
  (forall e t, In e DADOS_ESTADUAIS ->
     snd (fetch_state_data ex_get_ok ex_csv_one e) = Ok (Some t) -> (0 < ncols t)%nat) /\
  In (WriteCsv OUTPUT_FILENAME ex_out26)
     (fst (main ex_get_ok ex_csv_one ex_write_ok ex_post_ok ex_json [5; 0]%nat)).
Proof.
  assert (Hcols : forall e t, In e DADOS_ESTADUAIS ->
     snd (fetch_state_data ex_get_ok ex_csv_one e) = Ok (Some t) -> (0 < ncols t)%nat).
  { intros e t _. unfold fetch_state_data.
    destruct (idTabela e); [|discriminate]. destruct (idPacote e); [|discriminate].
    vm_compute. intros H. injection H as <-. lia. }
  assert (Hin : In (WriteCsv OUTPUT_FILENAME ex_out26)
     (fst (main ex_get_ok ex_csv_one ex_write_ok ex_post_ok ex_json [5; 0]%nat)))
    by (vm_compute; tauto).
  split; [|split; [exact Hcols|exact Hin]].
  destruct (main_row_count ex_get_ok ex_csv_one ex_write_ok ex_post_ok ex_json [5; 0]%nat
              _ _ ex_out26 Hcols ltac:(vm_compute; reflexivity) Hin) as [Hlen _].
  rewrite Hlen. vm_compute. reflexivity.
Defined.

(** C7: a POST answered with a 4xx/5xx status comes after the snapshot was
    written without error (the write and its "saved" log line precede every
    POST); the error is caught and logged by the send step, and the run
    goes on to its final log line and ends normally. *)
Theorem main_post_http_error (requests_get : Z -> Z -> res response)
    (read_csv : pystr -> res table) (write_csv : pystr -> table -> res unit)
    (requests_post : list (list cell) -> res response)
    (response_json : response -> res pystr) (sched : list nat)
    tr r (p : list (list cell)) (resp : response) :
  main requests_get read_csv write_csv requests_post response_json sched = (tr, r) ->
  In (HttpPost p) tr ->
  requests_post p = Ok resp ->
  400 <= status_code resp < 600 ->
  (exists out tr1 tr2,
     tr = tr1 ++ tr2 /\ write_csv OUTPUT_FILENAME out = Ok tt /\
     In (WriteCsv OUTPUT_FILENAME out) tr1 /\ In (LogInfo MsgSaved) tr1 /\
     forallb (fun ev => negb (is_post ev)) tr1 = true /\ In (HttpPost p) tr2) /\
  In (LogError (MsgApiError (HTTPError resp))) tr /\ r = Ok tt /\
  (exists tr0, tr = tr0 ++ [LogInfo MsgDone]).
Proof.
  rewrite main_unfold.
  destruct (main_after_fetch write_csv requests_post response_json _) as [tr0 r0] eqn:Hm.
  intros H. injection H as <- <-. intros Hin Hp Hs.
  destruct Hin as [Hin|Hin]; [discriminate|].
  destruct (main_after_fetch_cases _ _ _ _ _ _ Hm) as
    [[ex [_ [-> _]]]|[[_ [-> _]]|[[dfs [_ [_ [_ [-> _]]]]]|
      [dfs [out [Hc [_ [Hpc Hw]]]]]]]];
    try solve [simpl in Hin; decompose [or False] Hin; discriminate].
  destruct Hw as [[ex [Hw [-> ->]]]|[Hw [tr' [r' [He Hcase]]]]];
    [simpl in Hin; decompose [or False] Hin; discriminate|].
  assert (Hin' : In (HttpPost p) tr').
  { destruct Hcase as [[_ [-> _]]|[ex [_ [-> _]]]];
      unfold pre_send in Hin; simpl in Hin; repeat rewrite in_app_iff in Hin;
      decompose [or] Hin; try discriminate; try assumption;
      match goal with Hx : In _ [_] |- _ =>
        destruct Hx as [Hx|[]]; discriminate end. }
  destruct (enviar_dados_para_api_http_error _ _ _ _ _ _ _ He Hin' Hp Hs)
    as [-> Herr].
  destruct Hcase as [[_ [-> ->]]|[ex [Hx _]]]; [|discriminate].
  split; [|split; [|split]].
  - exists out, (LogInfo MsgStart :: pre_send out), (tr' ++ [LogInfo MsgDone]).
    split; [reflexivity|]. split; [exact Hw|].
    unfold pre_send. simpl. split; [tauto|]. split; [tauto|]. split; [reflexivity|].
    apply in_or_app. left. exact Hin'.
  - right. unfold pre_send. simpl. right. right. right. right.
    apply in_or_app. left. exact Herr.
  - reflexivity.
  - exists (LogInfo MsgStart :: pre_send out ++ tr'). simpl.
    try rewrite <- app_assoc. reflexivity.
Qed.

Lemma main_post_http_error_witness :
  In (HttpPost (rows ex_out26))
     (fst (main ex_get_ok ex_csv_one ex_write_ok ex_post_500 ex_json [])) /\
  snd (main ex_get_ok ex_csv_one ex_write_ok ex_post_500 ex_json []) = Ok tt.
Proof.
  assert (Hin : In (HttpPost (rows ex_out26))
     (fst (main ex_get_ok ex_csv_one ex_write_ok ex_post_500 ex_json [])))
    by (vm_compute; tauto).
  split; [exact Hin|].
  destruct (main_post_http_error ex_get_ok ex_csv_one ex_write_ok ex_post_500 ex_json []
              _ _ (rows ex_out26) (mk_response 500 (lit "erro"))
              ltac:(vm_compute; reflexivity) Hin ltac:(reflexivity) ltac:(simpl; lia))
    as (_ & _ & Hr & _).
  exact Hr.
Defined.

(** C10: whatever order the pool's tasks finish in, [executor.map] yields
    the per-state results in catalogue order, so the run does not depend
    on the schedule, and the table written is the normalized concatenation
    of the non-empty parsed tables taken in catalogue order. *)
Theorem main_merge_in_catalogue_order (requests_get : Z -> Z -> res response)
    (read_csv : pystr -> res table) (write_csv : pystr -> table -> res unit)
    (requests_post : list (list cell) -> res response)
    (response_json : response -> res pystr) (sched1 sched2 : list nat) :
  executor_map (fun e => snd (fetch_state_data requests_get read_csv e))
    DADOS_ESTADUAIS sched1 =
    map (fun e => snd (fetch_state_data requests_get read_csv e)) DADOS_ESTADUAIS /\
  main requests_get read_csv write_csv requests_post response_json sched1 =
    main requests_get read_csv write_csv requests_post response_json sched2 /\
  (forall tr r out,
     main requests_get read_csv write_csv requests_post response_json sched1 = (tr, r) ->
     In (WriteCsv OUTPUT_FILENAME out) tr ->
     process_and_clean_data
       (concat_dfs (nonempty_successes
          (map (fun e => snd (fetch_state_data requests_get read_csv e))
               DADOS_ESTADUAIS))) = ([LogInfo MsgCleaning], Ok out)).
Proof.
  split; [apply executor_map_eq|].
  split; [rewrite !main_unfold; reflexivity|].
  intros tr r out. rewrite main_unfold.
  destruct (main_after_fetch write_csv requests_post response_json _) as [tr0 r0] eqn:Hm.
  intros H. injection H as <- <-. intros Hin.
  destruct Hin as [Hin|Hin]; [discriminate|].
  destruct (main_after_fetch_written _ _ _ _ _ _ _ _ Hm Hin) as (_ & _ & Hp & _).
  exact Hp.
Qed.

Lemma main_merge_in_catalogue_order_witness :
  main ex_get_ok ex_csv_one ex_write_ok ex_post_ok ex_json [26; 0; 13]%nat =
    main ex_get_ok ex_csv_one ex_write_ok ex_post_ok ex_json [] /\
  process_and_clean_data
    (concat_dfs (nonempty_successes
       (map (fun e => snd (fetch_state_data ex_get_ok ex_csv_one e)) DADOS_ESTADUAIS))) =
    ([LogInfo MsgCleaning], Ok ex_out26).
Proof.
  destruct (main_merge_in_catalogue_order ex_get_ok ex_csv_one ex_write_ok ex_post_ok
              ex_json [26; 0; 13]%nat []) as (_ & Heq & Hw).
  split; [exact Heq|].
  apply (Hw (fst (main ex_get_ok ex_csv_one ex_write_ok ex_post_ok ex_json [26; 0; 13]%nat))
            (snd (main ex_get_ok ex_csv_one ex_write_ok ex_post_ok ex_json [26; 0; 13]%nat))
            ex_out26); [vm_compute; reflexivity|vm_compute; tauto].
Defined.

(* ------------------------------------------------------------------ *)
(** ** Further properties of [fetch_state_data] *)

Lemma fetch_state_data_trace_shape (requests_get : Z -> Z -> res response)
    (read_csv : pystr -> res table) (e : estado) t p :
  idTabela e = Some t -> idPacote e = Some p ->
  exists l, fst (fetch_state_data requests_get read_csv e) = HttpGet t p :: l /\
            forallb (fun ev => negb (is_get ev)) l = true.
Proof.
  intros Ht Hp. unfold fetch_state_data. rewrite Ht, Hp.
  set (h := fun ex : exn => _ : py (option table)).
  assert (Hh : forall ex, exists m, h ex = ([LogError m], Ok None)).
  { intros ex. subst h. cbv beta. apply fetch_handler_total. }
  unfold try_except, bind at 1. simpl.
  destruct (requests_get t p) as [resp|ex]; simpl.
  2:{ destruct (Hh ex) as [m ->]. eexists; split; reflexivity. }
  unfold raise_for_status.
  destruct ((400 <=? status_code resp) && (status_code resp <? 600)); simpl.
  { eexists; split; reflexivity. }
  destruct (strip_is_empty (text resp)); simpl.
  { eexists; split; reflexivity. }
  destruct (read_csv (text resp)) as [df|ex]; simpl.
  { eexists; split; reflexivity. }
  destruct (Hh ex) as [m ->]. eexists; split; reflexivity.
Qed.

(** The request parameters are the entry's own, and there is at most one
    request: no retry on any path. *)
Theorem fetch_state_data_single_request (requests_get : Z -> Z -> res response)
    (read_csv : pystr -> res table) (e : estado) :
  (length (List.filter is_get (fst (fetch_state_data requests_get read_csv e))) <= 1)%nat /\
  (forall t p, In (HttpGet t p) (fst (fetch_state_data requests_get read_csv e)) ->
               idTabela e = Some t /\ idPacote e = Some p).
Proof.
  destruct (idTabela e) as [t|] eqn:Ht.
  2:{ rewrite (fetch_state_data_no_table _ _ e Ht). simpl. split; [lia|].
      intros t p [H|[]]; discriminate. }
  destruct (idPacote e) as [p|] eqn:Hp.
  2:{ unfold fetch_state_data. rewrite Ht, Hp. simpl. split; [lia|].
      intros t' p' []. }
  destruct (fetch_state_data_trace_shape requests_get read_csv e t p Ht Hp)
    as [l [-> Hl]].
  assert (Hnil : List.filter is_get l = []).
  { clear -Hl. induction l as [|ev l IH]; [reflexivity|]. cbn [List.filter].
    simpl in Hl. apply andb_true_iff in Hl as [H1 H2].
    destruct (is_get ev); [discriminate|]. apply IH. exact H2. }
  split.
  - cbn [List.filter is_get]. rewrite Hnil. simpl. lia.
  - intros t0 p0 [H|H]; [injection H as -> ->; auto|].
    rewrite forallb_forall in Hl. apply Hl in H. discriminate.
Qed.

(** A status in 400..599 is logged as a network error and the body is not
    parsed. *)
Theorem fetch_state_data_http_status_error (requests_get : Z -> Z -> res response)
    (read_csv : pystr -> res table) (e : estado) t p (resp : response) :
  idTabela e = Some t -> idPacote e = Some p ->
  requests_get t p = Ok resp -> 400 <= status_code resp < 600 ->
  fetch_state_data requests_get read_csv e =
    ([HttpGet t p; LogError (MsgNetworkError (uf_nome_of e) (HTTPError resp))], Ok None).
Proof.
  intros Ht Hp Hg Hs. unfold fetch_state_data. rewrite Ht, Hp.
  unfold try_except, bind at 1. simpl. rewrite Hg. simpl.
  unfold raise_for_status.
  replace ((400 <=? status_code resp) && (status_code resp <? 600)) with true
    by (symmetry; apply andb_true_iff; split; [apply Z.leb_le|apply Z.ltb_lt]; lia).
  reflexivity.
Qed.

Lemma fetch_state_data_http_status_error_witness :
  fetch_state_data ex_get_404 ex_csv_one (st 11 "Bahia" (Some 190)) =
    ([HttpGet 190 11; LogError (MsgNetworkError (lit "Bahia")
                        (HTTPError (mk_response 404 (lit "Not Found"))))], Ok None).
Proof.
  apply (fetch_state_data_http_status_error ex_get_404 ex_csv_one
           (st 11 "Bahia" (Some 190)) 190 11 (mk_response 404 (lit "Not Found")));
    [reflexivity|reflexivity|reflexivity|simpl; lia].
Defined.

(** A requests exception raised by the GET itself (connection error,
    timeout, ...) is logged as a network error. *)
Theorem fetch_state_data_request_exception (requests_get : Z -> Z -> res response)
    (read_csv : pystr -> res table) (e : estado) t p (ex : exn) :
  idTabela e = Some t -> idPacote e = Some p ->
  requests_get t p = Raise ex -> is_request_exception ex = true ->
  fetch_state_data requests_get read_csv e =
    ([HttpGet t p; LogError (MsgNetworkError (uf_nome_of e) ex)], Ok None).
Proof.
  intros Ht Hp Hg Hx. unfold fetch_state_data. rewrite Ht, Hp.
  unfold try_except, bind at 1. simpl. rewrite Hg. simpl. rewrite Hx.
  reflexivity.
Qed.

Lemma fetch_state_data_request_exception_witness :
  fetch_state_data ex_get_down ex_csv_one (st 11 "Bahia" (Some 190)) =
    ([HttpGet 190 11; LogError (MsgNetworkError (lit "Bahia") ConnectionError)], Ok None).
Proof.
  apply (fetch_state_data_request_exception ex_get_down ex_csv_one
           (st 11 "Bahia" (Some 190)) 190 11 ConnectionError); reflexivity.
Defined.

(** A body made only of whitespace is reported as an empty response and is
    not parsed. *)
Theorem fetch_state_data_blank_body (requests_get : Z -> Z -> res response)
    (read_csv : pystr -> res table) (e : estado) t p (resp : response) :
  idTabela e = Some t -> idPacote e = Some p ->
  requests_get t p = Ok resp ->
  ~ (400 <= status_code resp < 600) ->
  strip_is_empty (text resp) = true ->
  fetch_state_data requests_get read_csv e =
    ([HttpGet t p; LogWarning (MsgEmptyResponse (uf_nome_of e))], Ok None).
Proof.
  intros Ht Hp Hg Hs Hb. unfold fetch_state_data. rewrite Ht, Hp.
  unfold try_except, bind at 1. simpl. rewrite Hg. simpl.
  unfold raise_for_status.
  replace ((400 <=? status_code resp) && (status_code resp <? 600)) with false.
  2:{ symmetry. apply not_true_iff_false. rewrite andb_true_iff, Z.leb_le, Z.ltb_lt.
      exact Hs. }
  simpl. rewrite Hb. reflexivity.
Qed.

Lemma fetch_state_data_blank_body_witness :
  fetch_state_data ex_get_blank ex_csv_one (st 11 "Bahia" (Some 190)) =
    ([HttpGet 190 11; LogWarning (MsgEmptyResponse (lit "Bahia"))], Ok None).
Proof.
  apply (fetch_state_data_blank_body ex_get_blank ex_csv_one
           (st 11 "Bahia" (Some 190)) 190 11 (mk_response 200 [32%N; 13%N; 10%N; 9%N]));
    [reflexivity|reflexivity|reflexivity|simpl; lia|reflexivity].
Defined.

(** Every status outside 400..599 counts as success: a non-blank body is
    handed to the parser and its table is returned as it is. *)
Theorem fetch_state_data_success (requests_get : Z -> Z -> res response)
    (read_csv : pystr -> res table) (e : estado) t p (resp : response) (df : table) :
  idTabela e = Some t -> idPacote e = Some p ->
  requests_get t p = Ok resp ->
  ~ (400 <= status_code resp < 600) ->
  strip_is_empty (text resp) = false ->
  read_csv (text resp) = Ok df ->
  fetch_state_data requests_get read_csv e =
    ([HttpGet t p; LogInfo (MsgFetchOk (uf_nome_of e))], Ok (Some df)).
Proof.
  intros Ht Hp Hg Hs Hb Hc. unfold fetch_state_data. rewrite Ht, Hp.
  unfold try_except, bind at 1. simpl. rewrite Hg. simpl.
  unfold raise_for_status.
  replace ((400 <=? status_code resp) && (status_code resp <? 600)) with false.
  2:{ symmetry. apply not_true_iff_false. rewrite andb_true_iff, Z.leb_le, Z.ltb_lt.
      exact Hs. }
  simpl. rewrite Hb. simpl. rewrite Hc. reflexivity.
Qed.

Lemma fetch_state_data_success_witness :
  fetch_state_data ex_get_redirect ex_csv_one (st 31 "Sao Paulo" (Some 247)) =
    ([HttpGet 247 31; LogInfo (MsgFetchOk (lit "Sao Paulo"))],
     Ok (Some (mk_table 4 [[Some (lit "MG010001"); Some (lit "Credito");
                            Some (lit "01012020"); None]]))).
Proof.
  apply (fetch_state_data_success ex_get_redirect ex_csv_one
           (st 31 "Sao Paulo" (Some 247)) 247 31 (mk_response 302 (lit "Tabela|1")));
    try reflexivity. simpl. lia.
Defined.

(** An exception of the parser is caught: [ParserError] is logged as a
    parsing error, any other exception that is not a requests exception
    (such as pandas' [EmptyDataError] for a body with only the banner line)
    as an unexpected error; the function returns [None] either way. *)
Theorem fetch_state_data_parse_failure (requests_get : Z -> Z -> res response)
    (read_csv : pystr -> res table) (e : estado) t p (resp : response) (ex : exn) :
  idTabela e = Some t -> idPacote e = Some p ->
  requests_get t p = Ok resp ->
  ~ (400 <= status_code resp < 600) ->
  strip_is_empty (text resp) = false ->
  read_csv (text resp) = Raise ex ->
  is_request_exception ex = false ->
  fetch_state_data requests_get read_csv e =
    ([HttpGet t p;
      LogError (if is_parser_error ex then MsgParseError (uf_nome_of e) ex
                else MsgUnexpected (uf_nome_of e) ex)], Ok None).
Proof.
  intros Ht Hp Hg Hs Hb Hc Hx. unfold fetch_state_data. rewrite Ht, Hp.
  unfold try_except, bind at 1. simpl. rewrite Hg. simpl.
  unfold raise_for_status.
  replace ((400 <=? status_code resp) && (status_code resp <? 600)) with false.
  2:{ symmetry. apply not_true_iff_false. rewrite andb_true_iff, Z.leb_le, Z.ltb_lt.
      exact Hs. }
  simpl. rewrite Hb. simpl. rewrite Hc. simpl. rewrite Hx.
  destruct (is_parser_error ex); reflexivity.
Qed.

Lemma fetch_state_data_parse_failure_witness :
  fetch_state_data ex_get_ok ex_csv_banner_only (st 11 "Bahia" (Some 190)) =
    ([HttpGet 190 11; LogError (MsgUnexpected (lit "Bahia") EmptyDataError)], Ok None) /\
  fetch_state_data ex_get_ok ex_csv_fail (st 11 "Bahia" (Some 190)) =
    ([HttpGet 190 11; LogError (MsgParseError (lit "Bahia") ParserError)], Ok None).
Proof.
  split.
  - apply (fetch_state_data_parse_failure ex_get_ok ex_csv_banner_only
             (st 11 "Bahia" (Some 190)) 190 11
             (mk_response 200 (lit "Tabela|1" ++ [10%N] ++ lit "MG010001|Credito|01012020|"))
             EmptyDataError); try reflexivity. simpl. lia.
  - apply (fetch_state_data_parse_failure ex_get_ok ex_csv_fail
             (st 11 "Bahia" (Some 190)) 190 11
             (mk_response 200 (lit "Tabela|1" ++ [10%N] ++ lit "MG010001|Credito|01012020|"))
             ParserError); try reflexivity. simpl. lia.
Defined.



(* ------------------------------------------------------------------ *)
(** ** Further properties of [enviar_dados_para_api] *)



(** The POST events of the send step. *)
Lemma enviar_post_events (requests_post : list (list cell) -> res response)
    (response_json : response -> res pystr) (df : table) :
  List.filter is_post (fst (enviar_dados_para_api requests_post response_json df)) =
    if df_empty df then [] else [HttpPost (rows df)].
Proof.
  unfold enviar_dados_para_api.
  destruct (df_empty df); [reflexivity|]. simpl.
  destruct (requests_post (rows df)) as [resp|ex]; simpl.
  - unfold raise_for_status.
    destruct ((400 <=? status_code resp) && (status_code resp <? 600)); simpl.
    + destruct (is_request_exception (HTTPError resp)); simpl; [|reflexivity].
      reflexivity.
    + destruct (response_json resp) as [j|ex]; simpl; [reflexivity|].
      destruct (is_request_exception ex); simpl; [|reflexivity].
      destruct (exn_response ex); reflexivity.
  - destruct (is_request_exception ex); simpl; [|reflexivity].
    destruct (exn_response ex); reflexivity.
Qed.

(** The send step posts at most once, and only a non-empty frame; the
    payload is the frame's records, in row order. *)
Theorem enviar_dados_para_api_posts (requests_post : list (list cell) -> res response)
    (response_json : response -> res pystr) (df : table) :
  List.filter is_post (fst (enviar_dados_para_api requests_post response_json df)) =
    if df_empty df then [] else [HttpPost (rows df)].
Proof. exact (enviar_post_events requests_post response_json df). Qed.

(** A 2xx/3xx answer whose body decodes: the run logs the count, posts the
    records and logs the decoded answer. *)
Theorem enviar_dados_para_api_success (requests_post : list (list cell) -> res response)
    (response_json : response -> res pystr) (df : table) (resp : response) (j : pystr) :
  df_empty df = false ->
  requests_post (rows df) = Ok resp ->
  ~ (400 <= status_code resp < 600) ->
  response_json resp = Ok j ->
  enviar_dados_para_api requests_post response_json df =
    ([LogInfo (MsgPreparing (length (rows df))); HttpPost (rows df);
      LogInfo (MsgApiOk j)], Ok tt).
Proof.
  intros He Hp Hs Hj. unfold enviar_dados_para_api. rewrite He. simpl.
  rewrite Hp. simpl. unfold raise_for_status.
  replace ((400 <=? status_code resp) && (status_code resp <? 600)) with false.
  2:{ symmetry. apply not_true_iff_false. rewrite andb_true_iff, Z.leb_le, Z.ltb_lt.
      exact Hs. }
  simpl. rewrite Hj. reflexivity.
Qed.

Lemma enviar_dados_para_api_success_witness :
  enviar_dados_para_api ex_post_ok ex_json ex_clean =
    ([LogInfo (MsgPreparing 3); HttpPost (rows ex_clean); LogInfo (MsgApiOk (lit "{}"))],
     Ok tt).
Proof.
  apply (enviar_dados_para_api_success ex_post_ok ex_json ex_clean
           (mk_response 200 (lit "{}")) (lit "{}")); try reflexivity.
  simpl. lia.
Defined.

(** A 4xx/5xx answer is caught: the error and the body of the answer are
    logged, the answer is not decoded and the function returns normally. *)
Theorem enviar_dados_para_api_error_status (requests_post : list (list cell) -> res response)
    (response_json : response -> res pystr) (df : table) (resp : response) :
  df_empty df = false ->
  requests_post (rows df) = Ok resp ->
  400 <= status_code resp < 600 ->
  enviar_dados_para_api requests_post response_json df =
    ([LogInfo (MsgPreparing (length (rows df))); HttpPost (rows df);
      LogError (MsgApiError (HTTPError resp)); LogError (MsgApiDetails (text resp))],
     Ok tt).
Proof.
  intros He Hp Hs. unfold enviar_dados_para_api. rewrite He. simpl.
  rewrite Hp. simpl. unfold raise_for_status.
  replace ((400 <=? status_code resp) && (status_code resp <? 600)) with true
    by (symmetry; apply andb_true_iff; split; [apply Z.leb_le|apply Z.ltb_lt]; lia).
  reflexivity.
Qed.

Lemma enviar_dados_para_api_error_status_witness :
  enviar_dados_para_api ex_post_500 ex_json ex_clean =
    ([LogInfo (MsgPreparing 3); HttpPost (rows ex_clean);
      LogError (MsgApiError (HTTPError (mk_response 500 (lit "erro"))));
      LogError (MsgApiDetails (lit "erro"))], Ok tt).
Proof.
  apply (enviar_dados_para_api_error_status ex_post_500 ex_json ex_clean
           (mk_response 500 (lit "erro"))); try reflexivity.
  simpl. lia.
Defined.

(** A requests exception that carries no response (connection error,
    timeout, undecodable answer), raised by the POST or by [response.json()],
    is caught: only the error line is logged, without details. *)
Theorem enviar_dados_para_api_no_response (requests_post : list (list cell) -> res response)
    (response_json : response -> res pystr) (df : table) (ex : exn) :
  df_empty df = false ->
  is_request_exception ex = true -> exn_response ex = None ->
  (requests_post (rows df) = Raise ex \/
   exists resp, requests_post (rows df) = Ok resp /\
                ~ (400 <= status_code resp < 600) /\ response_json resp = Raise ex) ->
  enviar_dados_para_api requests_post response_json df =
    ([LogInfo (MsgPreparing (length (rows df))); HttpPost (rows df);
      LogError (MsgApiError ex)], Ok tt).
Proof.
  intros He Hx Hr Hcase. unfold enviar_dados_para_api. rewrite He. simpl.
  destruct Hcase as [Hp|[resp [Hp [Hs Hj]]]]; rewrite Hp; simpl.
  - rewrite Hx, Hr. reflexivity.
  - unfold raise_for_status.
    replace ((400 <=? status_code resp) && (status_code resp <? 600)) with false.
    2:{ symmetry. apply not_true_iff_false. rewrite andb_true_iff, Z.leb_le, Z.ltb_lt.
        exact Hs. }
    simpl. rewrite Hj. simpl. rewrite Hx, Hr. reflexivity.
Qed.

Lemma enviar_dados_para_api_no_response_witness :
  enviar_dados_para_api ex_post_down ex_json ex_clean =
    ([LogInfo (MsgPreparing 3); HttpPost (rows ex_clean); LogError (MsgApiError Timeout)],
     Ok tt) /\
  enviar_dados_para_api ex_post_ok ex_json_invalid ex_clean =
    ([LogInfo (MsgPreparing 3); HttpPost (rows ex_clean);
      LogError (MsgApiError RequestsJSONDecodeError)], Ok tt).
Proof.
  split.
  - apply (enviar_dados_para_api_no_response ex_post_down ex_json ex_clean Timeout);
      try reflexivity. left. reflexivity.
  - apply (enviar_dados_para_api_no_response ex_post_ok ex_json_invalid ex_clean
             RequestsJSONDecodeError); try reflexivity.
    right. exists (mk_response 200 (lit "{}")). split; [reflexivity|].
    split; [simpl; lia|reflexivity].
Defined.

(** What the send step can raise. *)
Lemma enviar_raise_inv (requests_post : list (list cell) -> res response)
    (response_json : response -> res pystr) (df : table) tr (ex : exn) :
  enviar_dados_para_api requests_post response_json df = (tr, Raise ex) ->
  is_request_exception ex = false /\ df_empty df = false /\
  (requests_post (rows df) = Raise ex \/
   exists resp, requests_post (rows df) = Ok resp /\
                ~ (400 <= status_code resp < 600) /\ response_json resp = Raise ex).
Proof.
  unfold enviar_dados_para_api. destruct (df_empty df); [discriminate|]. simpl.
  destruct (requests_post (rows df)) as [resp|ex0] eqn:Hp; simpl.
  - unfold raise_for_status.
    destruct ((400 <=? status_code resp) && (status_code resp <? 600)) eqn:Hs; simpl.
    + destruct (is_request_exception (HTTPError resp)) eqn:Hx; simpl; discriminate.
    + destruct (response_json resp) as [j|ex0] eqn:Hj; simpl; [discriminate|].
      destruct (is_request_exception ex0) eqn:Hx; simpl.
      * destruct (exn_response ex0); discriminate.
      * intros H. injection H as _ <-. split; [exact Hx|]. split; [reflexivity|].
        right. exists resp. split; [reflexivity|]. split; [|exact Hj].
        rewrite andb_false_iff, Z.leb_gt, Z.ltb_ge in Hs. lia.
  - destruct (is_request_exception ex0) eqn:Hx; simpl.
    + destruct (exn_response ex0); discriminate.
    + intros H. injection H as _ <-. auto.
Qed.

(** Only the [except requests.exceptions.RequestException] clause guards
    the send: an exception escapes it exactly when it is not a requests
    exception, and then it was raised by the POST itself or by
    [response.json()] on a 2xx/3xx answer. *)
Theorem enviar_dados_para_api_raises (requests_post : list (list cell) -> res response)
    (response_json : response -> res pystr) (df : table) tr (ex : exn) :
  enviar_dados_para_api requests_post response_json df = (tr, Raise ex) ->
  is_request_exception ex = false /\ df_empty df = false /\
  (requests_post (rows df) = Raise ex \/
   exists resp, requests_post (rows df) = Ok resp /\
                ~ (400 <= status_code resp < 600) /\ response_json resp = Raise ex).
Proof. exact (enviar_raise_inv requests_post response_json df tr ex). Qed.

Lemma enviar_dados_para_api_raises_witness :
  enviar_dados_para_api ex_post_oserror ex_json ex_clean =
    ([LogInfo (MsgPreparing 3); HttpPost (rows ex_clean)], Raise OSError) /\
  is_request_exception OSError = false /\ df_empty ex_clean = false /\
  (ex_post_oserror (rows ex_clean) = Raise OSError \/
   exists resp, ex_post_oserror (rows ex_clean) = Ok resp /\
                ~ (400 <= status_code resp < 600) /\ ex_json resp = Raise OSError).
Proof.
  split; [reflexivity|].
  exact (enviar_dados_para_api_raises ex_post_oserror ex_json ex_clean
           [LogInfo (MsgPreparing 3); HttpPost (rows ex_clean)] OSError eq_refl).
Defined.

(* ------------------------------------------------------------------ *)
(** ** Further properties of [process_and_clean_data] *)

(** On success the frame has the five columns of [COLUNAS] plus [uf], one
    output row for each input row in the same order, every output row
    has five cells, and [cod_aj_apur] and [data_inicio] are copied
    unchanged. *)
Theorem process_and_clean_data_shape (df out : table) (tr : list event) :
  process_and_clean_data df = (tr, Ok out) ->
  ncols out = 5%nat /\ length (rows out) = length (rows df) /\
  Forall2 (fun r r' => length r' = 5%nat /\ col 0 r' = col 0 r /\ col 2 r' = col 2 r)
    (rows df) (rows out).
Proof.
  intros H. apply process_and_clean_data_ok in H as (_ & _ & ->). simpl.
  split; [reflexivity|]. split; [apply length_map|].
  apply Forall2_map_self. intros r. unfold clean_row. simpl. auto.
Qed.

Lemma process_and_clean_data_shape_witness :
  ncols ex_clean = 5%nat /\ length (rows ex_clean) = length (rows ex_raw) /\
  Forall2 (fun r r' => length r' = 5%nat /\ col 0 r' = col 0 r /\ col 2 r' = col 2 r)
    (rows ex_raw) (rows ex_clean).
Proof.
  exact (process_and_clean_data_shape ex_raw ex_clean [LogInfo MsgCleaning] eq_refl).
Defined.

(** [str.replace("'", "''")] adds exactly one character per quote. *)
Theorem escape_quotes_length (s : pystr) :
  length (escape_quotes s) = (length s + count_occ N.eq_dec s 39%N)%nat.
Proof.
  induction s as [|c t IH]; [reflexivity|]. simpl.
  destruct (N.eqb_spec c 39) as [->|Hc]; simpl.
  - destruct (N.eq_dec 39%N 39%N) as [_|]; [|contradiction]. lia.
  - destruct (N.eq_dec c 39%N) as [|_]; [contradiction|]. lia.
Qed.

(** The escaping leaves every other character, and their order, as they
    are. *)
Theorem escape_quotes_other_chars (s : pystr) :
  List.filter (fun c => negb (N.eqb c 39%N)) (escape_quotes s) =
  List.filter (fun c => negb (N.eqb c 39%N)) s.
Proof.
  induction s as [|c t IH]; [reflexivity|]. simpl.
  destruct (N.eqb_spec c 39) as [->|Hc]; simpl; [exact IH|].
  apply N.eqb_neq in Hc. rewrite Hc. simpl. f_equal. exact IH.
Qed.

(** The escaping loses nothing: different descriptions stay different. *)
Theorem escape_quotes_injective (a b : pystr) :
  escape_quotes a = escape_quotes b -> a = b.
Proof.
  revert b. induction a as [|c a IH]; intros [|d b]; simpl; try reflexivity.
  - destruct (N.eqb d 39); discriminate.
  - destruct (N.eqb c 39); discriminate.
  - destruct (N.eqb_spec c 39) as [->|Hc]; destruct (N.eqb_spec d 39) as [->|Hd];
      intros H.
    + injection H as H. f_equal. apply IH. exact H.
    + injection H as H1 H2. contradiction (Hd (eq_sym H1)).
    + injection H as H1 H2. contradiction (Hc H1).
    + injection H as -> H. f_equal. apply IH. exact H.
Qed.

Lemma escape_quotes_injective_witness :
  lit "d'agua" = lit "d'agua".
Proof. apply escape_quotes_injective. reflexivity. Defined.

(* ------------------------------------------------------------------ *)
(** ** Properties of [pd.concat] *)

Lemma concat_dfs_width (dfs : list table) :
  ncols (concat_dfs dfs) = list_max (map ncols dfs).
Proof.
  unfold concat_dfs, list_max. simpl.
  induction dfs as [|t dfs IH]; simpl; [reflexivity|]. rewrite IH. reflexivity.
Qed.

(** The concatenation is as wide as the widest table, and a row of a
    narrower table is padded with [NaN] up to that width: every row of a
    concatenation of well-formed tables has exactly [ncols] cells. *)
Theorem concat_dfs_well_formed (dfs : list table) :
  Forall (fun t => Forall (fun r => (length r <= ncols t)%nat) (rows t)) dfs ->
  ncols (concat_dfs dfs) = list_max (map ncols dfs) /\
  Forall (fun r => length r = ncols (concat_dfs dfs)) (rows (concat_dfs dfs)).
Proof.
  intros Hwf. split; [apply concat_dfs_width|].
  rewrite concat_dfs_width. apply List.Forall_forall. intros r Hr.
  unfold concat_dfs in Hr. cbv zeta in Hr. cbn [rows] in Hr.
  rewrite in_flat_map in Hr. destruct Hr as [t [Ht Hr]].
  apply in_map_iff in Hr. destruct Hr as [r0 [<- Hr0]].
  rewrite List.Forall_forall in Hwf. specialize (Hwf t Ht).
  rewrite List.Forall_forall in Hwf. specialize (Hwf r0 Hr0).
  assert (Hm : (ncols t <= list_max (map ncols dfs))%nat).
  { assert (Hle := proj1 (list_max_le (map ncols dfs) (list_max (map ncols dfs)))
                     (Nat.le_refl _)).
    rewrite List.Forall_forall in Hle. apply Hle. apply in_map. exact Ht. }
  assert (Hw : fold_right (fun t m => Nat.max (ncols t) m) 0%nat dfs =
               list_max (map ncols dfs)).
  { pose proof (concat_dfs_width dfs) as Hc. unfold concat_dfs in Hc. exact Hc. }
  rewrite Hw. unfold pad_row. rewrite length_app, repeat_length. lia.
Qed.

Lemma concat_dfs_well_formed_witness :
  ncols (concat_dfs [mk_table 2 [[Some (lit "a")]]; mk_table 3 [[None; None; None]]]) = 3%nat /\
  rows (concat_dfs [mk_table 2 [[Some (lit "a")]]; mk_table 3 [[None; None; None]]]) =
    [[Some (lit "a"); None; None]; [None; None; None]] /\
  Forall (fun r => length r = 3%nat)
    (rows (concat_dfs [mk_table 2 [[Some (lit "a")]]; mk_table 3 [[None; None; None]]])).
Proof.
  split; [reflexivity|]. split; [reflexivity|].
  destruct (concat_dfs_well_formed
              [mk_table 2 [[Some (lit "a")]]; mk_table 3 [[None; None; None]]])
    as [_ H].
  - repeat constructor; simpl; lia.
  - exact H.
Defined.

(** Tables of one common width [n] are stacked as they are: the result
    has width [n] and its rows are the tables' rows, table after table. *)
Theorem concat_dfs_uniform (dfs : list table) (n : nat) :
  dfs <> [] ->
  Forall (fun t => ncols t = n /\ Forall (fun r => length r = n) (rows t)) dfs ->
  concat_dfs dfs = mk_table n (flat_map rows dfs).
Proof.
  intros Hne Hall.
  assert (Hw : fold_right (fun t m => Nat.max (ncols t) m) 0%nat dfs = n).
  { destruct dfs as [|t0 ds]; [contradiction|].
    clear Hne. revert t0 Hall. induction ds as [|t1 ds IH]; intros t0 Hall;
      inversion Hall as [|? ? [H0 _] Hrest]; subst; simpl; [lia|].
    simpl in IH. rewrite (IH t1 Hrest). lia. }
  unfold concat_dfs. cbv zeta. rewrite Hw. f_equal.
  clear Hne Hw. induction Hall as [|t ts [_ Hr] _ IH]; [reflexivity|].
  cbn [flat_map]. rewrite IH. f_equal.
  induction Hr as [|r rs Hlen _ IHr]; [reflexivity|].
  cbn [map]. rewrite IHr. unfold pad_row. rewrite Hlen, Nat.sub_diag.
  simpl. rewrite app_nil_r. reflexivity.
Qed.

Lemma concat_dfs_uniform_witness :
  concat_dfs [mk_table 1 [[Some (lit "a")]]; mk_table 1 [[None]; [Some (lit "b")]]] =
    mk_table 1 [[Some (lit "a")]; [None]; [Some (lit "b")]].
Proof.
  rewrite (concat_dfs_uniform _ 1); [reflexivity|discriminate|repeat constructor].
Defined.

(* ------------------------------------------------------------------ *)
(** ** Further properties of [main] *)

(** A fetch of an entry with its [idPacote] never raises (every exception
    of the [try] block is handled). *)
Lemma fetch_state_data_res_ok (requests_get : Z -> Z -> res response)
    (read_csv : pystr -> res table) (e : estado) :
  idPacote e <> None ->
  exists o, snd (fetch_state_data requests_get read_csv e) = Ok o.
Proof.
  intros Hp. unfold fetch_state_data.
  destruct (idTabela e) as [t|]; [|simpl; eauto].
  destruct (idPacote e) as [p|]; [|contradiction].
  set (h := fun ex : exn => _ : py (option table)).
  assert (Hh : forall ex, exists m, h ex = ([LogError m], Ok None)).
  { intros ex. subst h. cbv beta. apply fetch_handler_total. }
  unfold try_except, bind at 1. simpl.
  destruct (requests_get t p) as [resp|ex]; simpl.
  2:{ destruct (Hh ex) as [m ->]. simpl. eauto. }
  unfold raise_for_status.
  destruct ((400 <=? status_code resp) && (status_code resp <? 600)); simpl.
  { eauto. }
  destruct (strip_is_empty (text resp)); simpl; [eauto|].
  destruct (read_csv (text resp)) as [df|ex]; simpl; [eauto|].
  destruct (Hh ex) as [m ->]. simpl. eauto.
Qed.

Lemma DADOS_ESTADUAIS_idPacote :
  Forall (fun e => idPacote e <> None) DADOS_ESTADUAIS.
Proof. repeat constructor; discriminate. Qed.

(** The fetch phase of [main] never aborts the run. *)
Lemma collect_dfs_catalogue (requests_get : Z -> Z -> res response)
    (read_csv : pystr -> res table) :
  let results := map (fun e => snd (fetch_state_data requests_get read_csv e))
                   DADOS_ESTADUAIS in
  collect_dfs results = ([], Ok (nonempty_successes results)).
Proof.
  intros results. apply collect_dfs_all_ok. intros ex Hin. subst results.
  apply in_map_iff in Hin. destruct Hin as [e [He Hin]].
  pose proof DADOS_ESTADUAIS_idPacote as Hall.
  rewrite List.Forall_forall in Hall.
  destruct (fetch_state_data_res_ok requests_get read_csv e (Hall e Hin)) as [o Ho].
  congruence.
Qed.

Lemma in_filter_is_post p (l : list event) :
  In (HttpPost p) l -> In (HttpPost p) (List.filter is_post l).
Proof. intros H. apply filter_In. auto. Qed.

(** The sync POST sends exactly the table that was saved: a run posts at
    most once, and when it posts, the trace first shows the successful
    write of a table [out] and then the POST of [out]'s records. *)
Theorem main_posts_saved_table (requests_get : Z -> Z -> res response)
    (read_csv : pystr -> res table) (write_csv : pystr -> table -> res unit)
    (requests_post : list (list cell) -> res response)
    (response_json : response -> res pystr) (sched : list nat) tr r p :
  main requests_get read_csv write_csv requests_post response_json sched = (tr, r) ->
  In (HttpPost p) tr ->
  exists out tr1 tr2,
    tr = tr1 ++ WriteCsv OUTPUT_FILENAME out :: tr2 /\
    write_csv OUTPUT_FILENAME out = Ok tt /\
    p = rows out /\ In (HttpPost p) tr2 /\
    List.filter is_post tr = [HttpPost p].
Proof.
  rewrite main_unfold.
  destruct (main_after_fetch write_csv requests_post response_json _) as [tr0 r0] eqn:Hm.
  intros H Hin. injection H as <- <-.
  destruct (main_after_fetch_cases _ _ _ _ _ _ Hm) as
    [[ex [_ [-> _]]]|[[_ [-> _]]|[[dfs [_ [_ [_ [-> _]]]]]|
      [dfs [out [_ [_ [_ Hw]]]]]]]];
    try solve [simpl in Hin; decompose [or False] Hin; discriminate].
  destruct Hw as [[ex [_ [-> _]]]|[Hw [tr' [r' [Hs Hcase]]]]];
    [simpl in Hin; decompose [or False] Hin; discriminate|].
  pose proof (enviar_post_events requests_post response_json out) as Hpost.
  rewrite Hs in Hpost. simpl in Hpost.
  assert (Hin' : In (HttpPost p) tr').
  { destruct Hcase as [[_ [-> _]]|[ex [_ [-> _]]]];
      unfold pre_send in Hin; cbn [app] in Hin;
      destruct Hin as [H|[H|[H|[H|[H|Hin]]]]]; try discriminate H.
    - rewrite in_app_iff in Hin. destruct Hin as [Hin|[H|[]]]; [exact Hin|discriminate H].
    - exact Hin. }
  pose proof (in_filter_is_post p tr' Hin') as Hf. rewrite Hpost in Hf.
  destruct (df_empty out); [contradiction|].
  destruct Hf as [Hf|[]]. injection Hf as <-.
  exists out, [LogInfo MsgStart; LogInfo MsgConsolidating; LogInfo MsgCleaning].
  destruct Hcase as [[_ [-> _]]|[ex [_ [-> _]]]].
  - exists (LogInfo MsgSaved :: tr' ++ [LogInfo MsgDone]).
    split; [reflexivity|]. split; [exact Hw|]. split; [reflexivity|].
    split; [right; apply in_or_app; left; exact Hin'|].
    unfold pre_send. cbn [app]. cbn [List.filter is_post].
    rewrite List.filter_app, Hpost. reflexivity.
  - exists (LogInfo MsgSaved :: tr').
    split; [reflexivity|]. split; [exact Hw|]. split; [reflexivity|].
    split; [right; exact Hin'|].
    unfold pre_send. cbn [app]. cbn [List.filter is_post]. exact Hpost.
Qed.

Lemma main_posts_saved_table_witness :
  exists tr1 tr2,
    fst (main ex_get_ok ex_csv_one ex_write_ok ex_post_ok ex_json []) =
      tr1 ++ WriteCsv OUTPUT_FILENAME ex_out26 :: tr2 /\
    ex_write_ok OUTPUT_FILENAME ex_out26 = Ok tt /\
    In (HttpPost (rows ex_out26)) tr2 /\
    List.filter is_post (fst (main ex_get_ok ex_csv_one ex_write_ok ex_post_ok ex_json [])) =
      [HttpPost (rows ex_out26)].
Proof.
  destruct (main_posts_saved_table ex_get_ok ex_csv_one ex_write_ok ex_post_ok ex_json []
              (fst (main ex_get_ok ex_csv_one ex_write_ok ex_post_ok ex_json []))
              (snd (main ex_get_ok ex_csv_one ex_write_ok ex_post_ok ex_json []))
              (rows ex_out26) eq_refl)
    as [out [tr1 [tr2 [Htr [Hw [Hp [Hin Hf]]]]]]].
  - vm_compute. tauto.
  - assert (Ho : out = ex_out26).
    { destruct out as [n rs]. simpl in Hp. subst rs.
      assert (Hn : In (WriteCsv OUTPUT_FILENAME (mk_table n (rows ex_out26)))
                     (fst (main ex_get_ok ex_csv_one ex_write_ok ex_post_ok ex_json []))).
      { rewrite Htr. apply in_or_app. right. left. reflexivity. }
      vm_compute in Hn. decompose [or False] Hn; try discriminate.
      all: match goal with
           | H : WriteCsv _ _ = WriteCsv _ _ |- _ =>
               injection H; intros; subst; reflexivity
           end. }
    subst out. exists tr1, tr2. auto.
Defined.

(** The column names are assigned to the merged frame: when the widest
    fetched non-empty table does not have exactly four columns, the run
    stops with [ValueError] right after the cleaning log line, before any
    write or POST. *)
Theorem main_width_mismatch (requests_get : Z -> Z -> res response)
    (read_csv : pystr -> res table) (write_csv : pystr -> table -> res unit)
    (requests_post : list (list cell) -> res response)
    (response_json : response -> res pystr) (sched : list nat) :
  let dfs := nonempty_successes
               (map (fun e => snd (fetch_state_data requests_get read_csv e))
                  DADOS_ESTADUAIS) in
  dfs <> [] -> list_max (map ncols dfs) <> 4%nat ->
  main requests_get read_csv write_csv requests_post response_json sched =
    ([LogInfo MsgStart; LogInfo MsgConsolidating; LogInfo MsgCleaning],
     Raise ValueError).
Proof.
  intros dfs Hne Hw. rewrite main_unfold. unfold main_after_fetch.
  rewrite collect_dfs_catalogue. cbn [bind]. fold dfs.
  rewrite process_and_clean_data_raise by (rewrite concat_dfs_width; exact Hw).
  clearbody dfs. destruct dfs as [|d ds]; [contradiction|reflexivity].
Qed.

Lemma main_width_mismatch_witness :
  main ex_get_ok ex_csv_wide ex_write_ok ex_post_ok ex_json [] =
    ([LogInfo MsgStart; LogInfo MsgConsolidating; LogInfo MsgCleaning],
     Raise ValueError).
Proof.
  apply (main_width_mismatch ex_get_ok ex_csv_wide ex_write_ok ex_post_ok ex_json []).
  - vm_compute. discriminate.
  - vm_compute. discriminate.
Defined.



(** A run of [main] that returns normally either found nothing to process
    (and only logged the warning), or wrote the snapshot successfully, ran
    the send step to its end and logged the final line. *)
Theorem main_returns_normally (requests_get : Z -> Z -> res response)
    (read_csv : pystr -> res table) (write_csv : pystr -> table -> res unit)
    (requests_post : list (list cell) -> res response)
    (response_json : response -> res pystr) (sched : list nat) tr :
  main requests_get read_csv write_csv requests_post response_json sched = (tr, Ok tt) ->
  tr = [LogInfo MsgStart; LogWarning MsgNoData] \/
  exists out tr',
    tr = [LogInfo MsgStart; LogInfo MsgConsolidating; LogInfo MsgCleaning;
          WriteCsv OUTPUT_FILENAME out; LogInfo MsgSaved] ++ tr' ++ [LogInfo MsgDone] /\
    write_csv OUTPUT_FILENAME out = Ok tt /\
    enviar_dados_para_api requests_post response_json out = (tr', Ok tt).
Proof.
  rewrite main_unfold.
  destruct (main_after_fetch write_csv requests_post response_json _) as [tr0 r0] eqn:Hm.
  intros H. injection H as <- ->.
  destruct (main_after_fetch_cases _ _ _ _ _ _ Hm) as
    [[ex0 [_ [_ He]]]|[[_ [-> _]]|[[dfs [_ [_ [_ [_ He]]]]]|
      [dfs [out [_ [_ [_ Hw]]]]]]]]; try discriminate; [left; reflexivity|].
  destruct Hw as [[ex0 [_ [_ He]]]|[Hw [tr' [r' [Hs Hcase]]]]]; [discriminate|].
  destruct Hcase as [[-> [-> _]]|[ex0 [_ [_ He]]]]; [|discriminate].
  right. exists out, tr'. auto.
Qed.

Lemma main_returns_normally_witness :
  exists tr',
    fst (main ex_get_ok ex_csv_one ex_write_ok ex_post_ok ex_json []) =
      [LogInfo MsgStart; LogInfo MsgConsolidating; LogInfo MsgCleaning;
       WriteCsv OUTPUT_FILENAME ex_out26; LogInfo MsgSaved] ++ tr' ++ [LogInfo MsgDone] /\
    enviar_dados_para_api ex_post_ok ex_json ex_out26 = (tr', Ok tt).
Proof.
  destruct (main_returns_normally ex_get_ok ex_csv_one ex_write_ok ex_post_ok ex_json []
              (fst (main ex_get_ok ex_csv_one ex_write_ok ex_post_ok ex_json [])))
    as [H|[out [tr' [Htr [_ Hs]]]]].
  - vm_compute. reflexivity.
  - vm_compute in H. discriminate.
  - assert (Ho : out = ex_out26).
    { assert (Hn : nth 3 (fst (main ex_get_ok ex_csv_one ex_write_ok ex_post_ok ex_json []))
                     (LogInfo MsgDone) = WriteCsv OUTPUT_FILENAME out)
        by (rewrite Htr; reflexivity).
      vm_compute in Hn. injection Hn as <-. reflexivity. }
    subst out. exists tr'. auto.
Defined.
